(** * panel_site: the auth module, the HANA connector and the dashboard builder

    A shallow embedding of [app/auth.py], [db/models.py],
    [db/hana_connector.py] and [app/main.py], with the properties of the
    written specification proved about it.

    Conventions of the embedding.
    - A Python [str] is represented by the byte sequence of its UTF-8
      encoding, so [encode('utf-8')] and [decode('utf-8')] are the identity
      on the representation; [bytes] is the same type.
    - A naive [datetime] is the number of microseconds on its time line
      (an integer); [timedelta(hours=1)] is [3_600_000_000].
    - The values Python obtains from its surroundings are arguments of the
      function that asks for them: the salt of [bcrypt.gensalt()], the bytes
      of [os.urandom(16)], the reading of [datetime.utcnow()].
    - [print] appends one line to the standard output kept in the state;
      the process environment and the calls made to the HANA client are
      kept there too.
    - Only exceptions derived from [Exception] are modelled. *)

From Stdlib Require Import ZArith NArith Ascii String List.
From stdpp Require Import base option gmap strings list pretty.

Open Scope string_scope.
Open Scope list_scope.
Open Scope stdpp_scope.

(** ** Exceptions and results *)

Inductive exn : Type :=
| ValueError (msg : string)
| TypeError (msg : string)
| KeyError (msg : string)
| IntegrityError (msg : string)
| Exception (msg : string).

(** [str(e)] *)
Definition str_exn (e : exn) : string :=
  match e with
  | ValueError m | TypeError m | KeyError m | IntegrityError m | Exception m => m
  end.

Inductive result (A : Type) : Type :=
| Ok (a : A)
| Raise (e : exn).
Arguments Ok {A} a.
Arguments Raise {A} e.

Definition bytes := string.

Definition encode_utf8 (s : string) : bytes := s.
Definition decode_utf8 (b : bytes) : string := b.

(** [bytes.hex()]: two lowercase hexadecimal digits per byte. *)
Definition hex_digit (n : N) : ascii :=
  if (n <? 10)%N then ascii_of_N (48 + n) else ascii_of_N (87 + n).

Fixpoint hex (b : bytes) : string :=
  match b with
  | EmptyString => EmptyString
  | String c rest =>
      let n := N_of_ascii c in
      String (hex_digit (n / 16)) (String (hex_digit (n mod 16)) (hex rest))
  end.

(** ** db/models.py *)

Module User.
Record t : Type := mk
  { id : Z; username : string; email : string; password_hash : string }.
End User.

Module Session.
Record t : Type := mk
  { id : Z; session_id : string; user_id : Z; expiry_timestamp : Z }.
End Session.

(** The two tables behind a SQLAlchemy session. [users.username] and
    [sessions.session_id] are declared [unique=True, nullable=False], so a
    table is a finite map from that column to the other columns of the row;
    [users.email] is unique as well, which [commit] checks on insertion. The
    primary keys come from a per-table counter. Whether the foreign key
    [sessions.user_id] is enforced depends on the engine (SQLite, the engine
    of the example in models.py, enforces it only on request): the database
    carries the setting. *)
Record user_cols : Type := mk_user_cols
  { uc_id : Z; uc_email : string; uc_password_hash : string }.

Record session_cols : Type := mk_session_cols
  { sc_id : Z; sc_user_id : Z; sc_expiry_timestamp : Z }.

Record Database : Type := mkDatabase
  { users : gmap string user_cols;
    sessions : gmap string session_cols;
    users_seq : Z;
    sessions_seq : Z;
    foreign_keys : bool }.

Definition user_row (username : string) (c : user_cols) : User.t :=
  User.mk (uc_id c) username (uc_email c) (uc_password_hash c).

Definition session_row (session_id : string) (c : session_cols) : Session.t :=
  Session.mk (sc_id c) session_id (sc_user_id c) (sc_expiry_timestamp c).

(** The handle the functions receive as [db]; there is one database. *)
Inductive DbSession : Type := SessionLocal.

(** ** app/auth.py: state *)

(** The dict literals stored in the in-memory placeholders. *)
Record user_data : Type := mk_user_data
  { ud_email : string; ud_password_hash : string }.

Record session_data : Type := mk_session_data
  { sd_user_id : Z; sd_expiry_timestamp : Z }.

(** The handle of hana_ml: the object [ConnectionContext(address=...,
    port=..., user=..., password=...)] builds. *)
Record ConnectionContext : Type := mkConnectionContext
  { cc_address : string; cc_port : Z; cc_user : string; cc_password : string }.

(** The calls that reach the HANA client library, in order. *)
Inductive hana_call : Type :=
| Connect (c : ConnectionContext)
| Close (c : ConnectionContext).

Record World : Type := mkWorld
  { IN_MEMORY_USERS : gmap string user_data;
    IN_MEMORY_SESSIONS : gmap string session_data;
    database : Database;
    environ : gmap string string;
    hana_log : list hana_call;
    stdout : list string }.

Definition set_IN_MEMORY_USERS (f : gmap string user_data → gmap string user_data)
    (w : World) : World :=
  mkWorld (f (IN_MEMORY_USERS w)) (IN_MEMORY_SESSIONS w) (database w)
          (environ w) (hana_log w) (stdout w).

Definition set_IN_MEMORY_SESSIONS
    (f : gmap string session_data → gmap string session_data) (w : World) : World :=
  mkWorld (IN_MEMORY_USERS w) (f (IN_MEMORY_SESSIONS w)) (database w)
          (environ w) (hana_log w) (stdout w).

Definition set_database (f : Database → Database) (w : World) : World :=
  mkWorld (IN_MEMORY_USERS w) (IN_MEMORY_SESSIONS w) (f (database w))
          (environ w) (hana_log w) (stdout w).

Definition set_hana_log (f : list hana_call → list hana_call) (w : World) : World :=
  mkWorld (IN_MEMORY_USERS w) (IN_MEMORY_SESSIONS w) (database w)
          (environ w) (f (hana_log w)) (stdout w).

Definition set_stdout (f : list string → list string) (w : World) : World :=
  mkWorld (IN_MEMORY_USERS w) (IN_MEMORY_SESSIONS w) (database w)
          (environ w) (hana_log w) (f (stdout w)).

(** What a caller gets back: an ORM row or the stored dict. *)
Inductive user_obj : Type :=
| UserRow (u : User.t)
| UserDict (d : user_data).

Inductive session_obj : Type :=
| SessionRow (s : Session.t)
| SessionDict (d : session_data).

Definition user_obj_password_hash (u : user_obj) : string :=
  match u with
  | UserRow r => User.password_hash r
  | UserDict d => ud_password_hash d
  end.

Definition session_obj_user_id (s : session_obj) : Z :=
  match s with
  | SessionRow r => Session.user_id r
  | SessionDict d => sd_user_id d
  end.

Definition session_obj_expiry (s : session_obj) : Z :=
  match s with
  | SessionRow r => Session.expiry_timestamp r
  | SessionDict d => sd_expiry_timestamp d
  end.

(** ** A state and exception monad

    An exception leaves the state as it was when it was raised. *)

Definition M (A : Type) : Type := World → result A * World.

Definition ret {A} (a : A) : M A := fun w => (Ok a, w).

Definition bind {A B} (m : M A) (k : A → M B) : M B :=
  fun w =>
    match m w with
    | (Ok a, w') => k a w'
    | (Raise e, w') => (Raise e, w')
    end.

Definition raise {A} (e : exn) : M A := fun w => (Raise e, w).

Definition lift {A} (r : result A) : M A := fun w => (r, w).

Definition gets {A} (f : World → A) : M A := fun w => (Ok (f w), w).

Definition modify (f : World → World) : M unit := fun w => (Ok tt, f w).

(** [try: body  except Exception as e: handler] *)
Definition try_except {A} (body : M A) (handler : exn → M A) : M A :=
  fun w =>
    match body w with
    | (Raise e, w') => handler e w'
    | done => done
    end.

Definition print (line : string) : M unit :=
  modify (set_stdout (fun out => out ++ [line])).

(** The [x ← c; k] and [c;; k] notations of stdpp are used for [M]. *)
#[global] Instance M_ret : MRet M := @ret.
#[global] Instance M_bind : MBind M := fun A B k m => bind m k.

Definition HOUR : Z := 3600000000.

(** [x and f(x)] in a condition, for [x] an ORM row or a non-empty dict
    (both are true in a boolean context) or [None]. *)
Definition py_and {A} (x : option A) (f : A → result bool) : M bool :=
  match x with
  | Some a => lift (f a)
  | None => mret false
  end.

(** ** The SQLAlchemy session, as auth.py uses it *)

(** [db.query(User).filter(User.username == username).first()] *)
Definition query_user_first (username : string) : M (option User.t) :=
  gets (fun w => user_row username <$> users (database w) !! username).

(** [db.query(Session).filter(Session.session_id == session_id).first()] *)
Definition query_session_first (session_id : string) : M (option Session.t) :=
  gets (fun w => session_row session_id <$> sessions (database w) !! session_id).

Definition email_taken (email : string) (tbl : gmap string user_cols) : bool :=
  existsb (fun kv => String.eqb (uc_email kv.2) email) (map_to_list tbl).

(** [db.add(User(...)); db.commit(); db.refresh(new_user)] *)
Definition add_commit_user (username email password_hash : string) : M User.t :=
  fun w =>
    let d := database w in
    if bool_decide (is_Some (users d !! username)) || email_taken email (users d)
    then (Raise (IntegrityError "UNIQUE constraint failed"), w)
    else
      let c := mk_user_cols (users_seq d) email password_hash in
      (Ok (user_row username c),
          set_database (fun d => mkDatabase (<[username := c]> (users d)) (sessions d)
                                   (users_seq d + 1) (sessions_seq d) (foreign_keys d)) w).

Definition user_exists (user_id : Z) (tbl : gmap string user_cols) : bool :=
  existsb (fun kv => (uc_id kv.2 =? user_id)%Z) (map_to_list tbl).

(** [db.add(Session(...)); db.commit(); db.refresh(new_session)] *)
Definition add_commit_session (session_id : string) (user_id expiry_timestamp : Z)
    : M Session.t :=
  fun w =>
    let d := database w in
    if bool_decide (is_Some (sessions d !! session_id))
    then (Raise (IntegrityError "UNIQUE constraint failed"), w)
    else if foreign_keys d && negb (user_exists user_id (users d))
    then (Raise (IntegrityError "FOREIGN KEY constraint failed"), w)
    else
      let c := mk_session_cols (sessions_seq d) user_id expiry_timestamp in
      (Ok (session_row session_id c),
          set_database (fun d => mkDatabase (users d) (<[session_id := c]> (sessions d))
                                   (users_seq d) (sessions_seq d + 1) (foreign_keys d)) w).

(** [db.delete(session); db.commit()]: the row is deleted by primary key. *)
Definition delete_commit_session (session : Session.t) : M unit :=
  modify (set_database (fun d =>
    mkDatabase (users d)
      (filter (fun kv => sc_id kv.2 ≠ Session.id session) (sessions d))
      (users_seq d) (sessions_seq d) (foreign_keys d))).

(** ** app/auth.py *)

Section auth.
(** The bcrypt library. Both functions raise [ValueError] on input they
    do not accept. *)
Variable bcrypt_hashpw : bytes → bytes → result bytes.
Variable bcrypt_checkpw : bytes → bytes → result bool.

Definition hash_password (password : string) (gensalt : bytes) : result bytes :=
  let salt := gensalt in
  let hashed_password := bcrypt_hashpw (encode_utf8 password) salt in
  hashed_password.

Definition verify_password (plain_password : string) (hashed_password : bytes)
    : result bool :=
  bcrypt_checkpw (encode_utf8 plain_password) hashed_password.

Definition create_user (username email password : string) (db : option DbSession)
    (gensalt : bytes) : M user_obj :=
  password_hash ← lift (hash_password password gensalt);
  match db with
  | Some _ =>
      new_user ← add_commit_user username email (decode_utf8 password_hash);
      mret (UserRow new_user)
  | None =>
      print ("Placeholder: Creating user " +:+ username +:+ " with email " +:+ email);;
      modify (set_IN_MEMORY_USERS
                (<[username := mk_user_data email (decode_utf8 password_hash)]>));;
      stored ← gets (fun w => IN_MEMORY_USERS w !! username);
      match stored with
      | Some d => mret (UserDict d)
      | None => raise (KeyError username)
      end
  end.

Definition authenticate_user (username password : string) (db : option DbSession)
    : M (option user_obj) :=
  match db with
  | Some _ =>
      user ← query_user_first username;
      verified ← py_and user (fun u =>
        verify_password password (encode_utf8 (User.password_hash u)));
      if (verified : bool) then mret (UserRow <$> user) else mret None
  | None =>
      user_data ← gets (fun w => IN_MEMORY_USERS w !! username);
      verified ← py_and user_data (fun d =>
        verify_password password (encode_utf8 (ud_password_hash d)));
      if (verified : bool) then
        print ("Placeholder: Authenticated user " +:+ username);;
        mret (UserDict <$> user_data)
      else
        print ("Placeholder: Authentication failed for user " +:+ username);;
        mret None
  end.

Definition create_session (user_id : Z) (db : option DbSession)
    (urandom : bytes) (utcnow : Z) : M string :=
  let session_id := hex urandom in
  let expiry_timestamp := (utcnow + HOUR)%Z in
  match db with
  | Some _ =>
      new_session ← add_commit_session session_id user_id expiry_timestamp;
      mret (Session.session_id new_session)
  | None =>
      print ("Placeholder: Creating session " +:+ session_id +:+ " for user_id "
             +:+ pretty user_id);;
      modify (set_IN_MEMORY_SESSIONS
                (<[session_id := mk_session_data user_id expiry_timestamp]>));;
      mret session_id
  end.

Definition get_session (session_id : string) (db : option DbSession) (utcnow : Z)
    : M (option session_obj) :=
  match db with
  | Some _ =>
      session ← query_session_first session_id;
      verified ← py_and session (fun s =>
        Ok (utcnow <? Session.expiry_timestamp s)%Z);
      if (verified : bool) then mret (SessionRow <$> session) else mret None
  | None =>
      session_data ← gets (fun w => IN_MEMORY_SESSIONS w !! session_id);
      verified ← py_and session_data (fun d =>
        Ok (utcnow <? sd_expiry_timestamp d)%Z);
      if (verified : bool) then
        print ("Placeholder: Session " +:+ session_id +:+ " is valid.");;
        mret (SessionDict <$> session_data)
      else
        print ("Placeholder: Session " +:+ session_id +:+ " is invalid or expired.");;
        mret None
  end.

Definition delete_session (session_id : string) (db : option DbSession) : M bool :=
  match db with
  | Some _ =>
      session ← query_session_first session_id;
      match session with
      | Some s => delete_commit_session s;; mret true
      | None => mret false
      end
  | None =>
      present ← gets (fun w => bool_decide (is_Some (IN_MEMORY_SESSIONS w !! session_id)));
      if (present : bool) then
        modify (set_IN_MEMORY_SESSIONS (delete session_id));;
        print ("Placeholder: Deleted session " +:+ session_id);;
        mret true
      else
        print ("Placeholder: Session " +:+ session_id +:+ " not found for deletion.");;
        mret false
  end.
End auth.

(** ** pandas and Panel, as far as the connector and the dashboard use them *)

Inductive cell : Type :=
| Int (z : Z)
| Str (s : string).

(** A frame built from a dict of equally long columns, in the dict's order;
    [pd.DataFrame()] has no column. The index is the default range, so the
    number of rows is the length of a column. *)
Record DataFrame : Type := pd_DataFrame
  { df_data : list (string * list cell) }.

Definition df_columns (df : DataFrame) : list string := (df_data df).*1.

Definition df_len (df : DataFrame) : nat :=
  match df_data df with
  | [] => 0
  | (_, values) :: _ => length values
  end.

(** [df.empty]: one of the two axes has length 0. *)
Definition df_empty (df : DataFrame) : bool :=
  (length (df_columns df) =? 0)%nat || (df_len df =? 0)%nat.

(** A Panel object is the record of the arguments it was built from
    ([pn_pane_DataFrame] below says which arguments the table pane takes). *)
Inductive pane : Type :=
| Markdown (object : string)
| Alert (object : string) (alert_type : string)
| DataFrame_pane (object : DataFrame) (name : string) (width height : Z)
    (show_index : option bool).

Inductive viewable : Type :=
| Pane (p : pane)
| Column (objects : list pane) (sizing_mode : string).

(** [pn.pane.DataFrame(object, name=..., width=..., height=...)], with
    [show_index=...] when the caller passes it. [name], [width] and [height]
    are parameters of the pane; [show_index] is not one (the pane calls it
    [index]), and a keyword that is no parameter is refused with
    [TypeError]. *)
Definition pn_pane_DataFrame (object : DataFrame) (name : string) (width height : Z)
    (show_index : option bool) : result pane :=
  match show_index with
  | None => Ok (DataFrame_pane object name width height None)
  | Some _ =>
      Raise (TypeError "DataFrame.__init__() got an unexpected keyword argument 'show_index'")
  end.

(** ** db/hana_connector.py *)

Module hana_connector.
Section hana_connector.
(** The built-in [int] on a [str], and what the HANA server answers when a
    connection is opened: [None], or the exception the client raises. *)
Variable int : string → result Z.
Variable connect_error : ConnectionContext → option exn.

(** The constructor [ConnectionContext(address=, port=, user=, password=)] *)
Definition ConnectionContext_new (address : string) (port : Z) (user password : string)
    : M ConnectionContext :=
  let c := mkConnectionContext address port user password in
  modify (set_hana_log (fun l => l ++ [Connect c]));;
  match connect_error c with
  | None => mret c
  | Some e => raise e
  end.

Definition getenv (name : string) : M (option string) :=
  gets (fun w => environ w !! name).

(** The truth value of what [os.getenv] returned. *)
Definition truthy (v : option string) : bool :=
  match v with
  | Some s => negb (String.eqb s "")
  | None => false
  end.

(** The two [except] clauses; [port] is the text of the variable at the
    time the exception is raised. *)
Definition connection_handlers (port : string) (e : exn) : M (option ConnectionContext) :=
  match e with
  | ValueError _ =>
      print ("Error: HANA_PORT ('" +:+ port +:+ "') is not a valid integer.");;
      mret None
  | _ =>
      print ("Error connecting to SAP HANA: " +:+ str_exn e);;
      mret None
  end.

Definition get_hana_connection : M (option ConnectionContext) :=
  address ← getenv "HANA_ADDRESS";
  port ← getenv "HANA_PORT";
  user ← getenv "HANA_USER";
  password ← getenv "HANA_PASSWORD";
  if negb (forallb truthy [address; port; user; password]) then
    print "Error: Missing one or more SAP HANA connection environment variables.";;
    print "Please set HANA_ADDRESS, HANA_PORT, HANA_USER, and HANA_PASSWORD.";;
    mret None
  else
    let address := default "" address in
    let port := default "" port in
    let user := default "" user in
    let password := default "" password in
    match int port with
    | Raise e => connection_handlers port e
    | Ok port =>
        try_except
          (connection ← ConnectionContext_new address port user password;
           print "Successfully connected to SAP HANA.";;
           mret (Some connection))
          (connection_handlers (pretty port))
    end.
End hana_connector.

Definition sales_mock_data : list (string * list cell) :=
  [ ("OrderID", [Int 1; Int 2; Int 3; Int 4; Int 5]);
    ("Product", [Str "Laptop"; Str "Mouse"; Str "Keyboard"; Str "Monitor"; Str "Webcam"]);
    ("Quantity", [Int 1; Int 2; Int 1; Int 1; Int 3]);
    ("Price", [Int 1200; Int 25; Int 75; Int 300; Int 50]) ].

Definition get_sales_data (cc : option ConnectionContext) : M DataFrame :=
  match cc with
  | None =>
      print "Error: No SAP HANA connection provided to get_sales_data.";;
      mret (pd_DataFrame [])
  | Some _ =>
      print "Simulating fetching sales data...";;
      let mock_data := sales_mock_data in
      mret (pd_DataFrame mock_data)
  end.

Definition customer_mock_data : list (string * list cell) :=
  [ ("CustomerID", [Int 101; Int 102; Int 103; Int 104; Int 105]);
    ("Name", [Str "Alice Smith"; Str "Bob Johnson"; Str "Charlie Brown";
              Str "Diana Prince"; Str "Edward King"]);
    ("Segment", [Str "Retail"; Str "Wholesale"; Str "Retail"; Str "Corporate";
                 Str "Retail"]) ].

Definition get_customer_data (cc : option ConnectionContext) : M DataFrame :=
  match cc with
  | None =>
      print "Error: No SAP HANA connection provided to get_customer_data.";;
      mret (pd_DataFrame [])
  | Some _ =>
      print "Simulating fetching customer data...";;
      let mock_data := customer_mock_data in
      mret (pd_DataFrame mock_data)
  end.
End hana_connector.

(** ** app/main.py *)

Module main.
Record MockUser : Type := mkMockUser { username : string }.

Section main.
(** The two functions main.py reaches through the module [hana_connector]
    (the tests replace them), and what the server answers to [close()]. *)
Variable get_hana_connection : M (option ConnectionContext).
Variable get_sales_data : option ConnectionContext → M DataFrame.
Variable close_error : ConnectionContext → option exn.

(** [hana_conn.close()] *)
Definition close (hana_conn : ConnectionContext) : M unit :=
  modify (set_hana_log (fun l => l ++ [Close hana_conn]));;
  match close_error hana_conn with
  | None => mret tt
  | Some e => raise e
  end.

Definition empty_sales_pane : pane :=
  DataFrame_pane (pd_DataFrame []) "Sales Data" 800 300 None.

Definition create_sales_dashboard (user : option MockUser) : M viewable :=
  match user with
  | None => mret (Pane (Markdown "## Error: No user context provided."))
  | Some user =>
      let dashboard_components :=
        [Markdown ("# Sales Dashboard for " +:+ username user)] in
      hana_conn ← get_hana_connection;
      '(dashboard_components, sales_df_pane) ←
        match hana_conn with
        | None =>
            let dashboard_components :=
              dashboard_components ++
                [Alert "Error: Could not connect to SAP HANA. Please check connection details or environment variables." "danger"] in
            sales_df_pane ← lift (pn_pane_DataFrame (pd_DataFrame []) "Sales Data" 800 300 None);
            mret (dashboard_components, sales_df_pane)
        | Some hana_conn =>
            let dashboard_components :=
              dashboard_components ++
                [Alert "Successfully connected to SAP HANA." "success"] in
            sales_df ← get_sales_data (Some hana_conn);
            '(dashboard_components, sales_df_pane) ←
              (if df_empty sales_df then
                 let dashboard_components :=
                   dashboard_components ++
                     [Alert "No sales data available or an error occurred during fetching." "warning"] in
                 sales_df_pane ←
                   lift (pn_pane_DataFrame (pd_DataFrame []) "Sales Data" 800 300 None);
                 mret (dashboard_components, sales_df_pane)
               else
                 sales_df_pane ←
                   lift (pn_pane_DataFrame sales_df "Sales Data" 800 300 (Some false));
                 mret (dashboard_components, sales_df_pane));
            dashboard_components ←
              try_except
                (close hana_conn;;
                 print "SAP HANA connection closed.";;
                 mret dashboard_components)
                (fun e =>
                   print ("Error closing SAP HANA connection: " +:+ str_exn e);;
                   mret (dashboard_components ++
                           [Alert ("Warning: Could not close SAP HANA connection: "
                                   +:+ str_exn e) "warning"]));
            mret (dashboard_components, sales_df_pane)
        end;
      mret (Column (dashboard_components ++ [sales_df_pane]) "stretch_both")
  end.
End main.
End main.

(** ** Vocabulary of the statements *)

(** The record kept under a key in the store a call addresses: the table of
    the database when [db] is given, the in-memory mapping otherwise. *)
Definition stored_session (db : option DbSession) (w : World) (session_id : string)
    : option session_obj :=
  match db with
  | Some _ => SessionRow ∘ session_row session_id <$> sessions (database w) !! session_id
  | None => SessionDict <$> IN_MEMORY_SESSIONS w !! session_id
  end.

Definition stored_user (db : option DbSession) (w : World) (username : string)
    : option user_obj :=
  match db with
  | Some _ => UserRow ∘ user_row username <$> users (database w) !! username
  | None => UserDict <$> IN_MEMORY_USERS w !! username
  end.

(** [n] successive calls of [delete_session] on one token: the values they
    return, in order, and the state they leave. *)
Fixpoint delete_session_times (n : nat) (session_id : string) (db : option DbSession)
    (w : World) : list (result bool) * World :=
  match n with
  | O => ([], w)
  | S n' =>
      let '(r, w') := delete_session session_id db w in
      let '(rs, w'') := delete_session_times n' session_id db w' in
      (r :: rs, w'')
  end.

(** The texts of the notices of one kind in a view, and its tables. *)
Definition pane_alert (alert_type : string) (p : pane) : option string :=
  match p with
  | Alert object t => if String.eqb t alert_type then Some object else None
  | _ => None
  end.

Definition pane_table (p : pane) : option DataFrame :=
  match p with
  | DataFrame_pane object _ _ _ _ => Some object
  | _ => None
  end.

Definition view_panes (v : viewable) : list pane :=
  match v with
  | Pane p => [p]
  | Column objects _ => objects
  end.

Definition view_alerts (alert_type : string) (v : viewable) : list string :=
  omap (pane_alert alert_type) (view_panes v).

Definition view_tables (v : viewable) : list DataFrame :=
  omap pane_table (view_panes v).

(** The handle [get_hana_connection] returns in a given environment. *)
Definition connection_in (int : string → result Z)
    (connect_error : ConnectionContext → option exn) (env : gmap string string)
    : option ConnectionContext :=
  match env !! "HANA_ADDRESS", env !! "HANA_PORT", env !! "HANA_USER",
        env !! "HANA_PASSWORD" with
  | Some address, Some port, Some user, Some password =>
      if forallb hana_connector.truthy [Some address; Some port; Some user; Some password]
      then
        match int port with
        | Ok n =>
            match connect_error (mkConnectionContext address n user password) with
            | None => Some (mkConnectionContext address n user password)
            | Some _ => None
            end
        | Raise _ => None
        end
      else None
  | _, _, _, _ => None
  end.

Definition hana_variables : list string :=
  ["HANA_ADDRESS"; "HANA_PORT"; "HANA_USER"; "HANA_PASSWORD"].

(** ** Sample surroundings, for the instances the statements are run on *)

Definition sample_hashpw (password salt : bytes) : result bytes :=
  Ok (salt +:+ password).

Definition sample_checkpw (password hashed : bytes) : result bool :=
  Ok (String.eqb hashed ("$2b$12$" +:+ password)).

Definition digit_value (c : ascii) : option Z :=
  let n := N_of_ascii c in
  if ((48 <=? n) && (n <=? 57))%N then Some (Z.of_N n - 48)%Z else None.

Fixpoint digits_value (acc : Z) (s : string) : option Z :=
  match s with
  | EmptyString => Some acc
  | String c rest =>
      match digit_value c with
      | Some d => digits_value (10 * acc + d)%Z rest
      | None => None
      end
  end.

(** [int] on a non-empty string of ASCII digits; anything else is refused. *)
Definition sample_int (s : string) : result Z :=
  match s with
  | EmptyString => Raise (ValueError "invalid literal for int() with base 10")
  | _ =>
      match digits_value 0 s with
      | Some z => Ok z
      | None => Raise (ValueError "invalid literal for int() with base 10")
      end
  end.

Definition empty_database : Database := mkDatabase ∅ ∅ 1 1 false.

Definition empty_world : World := mkWorld ∅ ∅ empty_database ∅ [] [].

Definition sample_environ : gmap string string :=
  <["HANA_ADDRESS" := "hana.example.org"]>
    (<["HANA_PORT" := "30015"]>
       (<["HANA_USER" := "dashboard"]>
          (<["HANA_PASSWORD" := "secret"]> ∅))).

Definition sample_world : World := mkWorld ∅ ∅ empty_database sample_environ [] [].

Definition sample_handle : ConnectionContext :=
  mkConnectionContext "hana.example.org" 30015 "dashboard" "secret".

Definition testuser : main.MockUser := main.mkMockUser "testuser".

(** A world with one in-memory session, stored under the token
    ["00ff"] for user 7 and expiring at time 5000, and one row in the
    sessions table under the same token. *)
Definition one_session_world : World :=
  set_database
    (fun d => mkDatabase (users d) (<["00ff" := mk_session_cols 1 7 5000]> (sessions d))
                (users_seq d) 2 (foreign_keys d))
    (set_IN_MEMORY_SESSIONS (<["00ff" := mk_session_data 7 5000]>) empty_world).

(** A world in which user ["bob"] is registered in memory and in the users
    table, with the hash [sample_hashpw] gives the password ["hunter2"]. *)
Definition one_user_world : World :=
  set_database
    (fun d => mkDatabase
                (<["bob" := mk_user_cols 1 "bob@example.org" "$2b$12$hunter2"]> (users d))
                (sessions d) 2 (sessions_seq d) true)
    (set_IN_MEMORY_USERS
       (<["bob" := mk_user_data "bob@example.org" "$2b$12$hunter2"]>) empty_world).

(** A stand-in for [bcrypt.checkpw] that, as bcrypt does from version 5.0
    on, refuses a password of more than 72 bytes with [ValueError]. *)
Definition refusing_checkpw (password hashed : bytes) : result bool :=
  if (72 <? String.length password)%nat
  then Raise (ValueError "password cannot be longer than 72 bytes, truncate manually if necessary (e.g. my_password[:72])")
  else sample_checkpw password hashed.

Fixpoint string_repeat (c : ascii) (n : nat) : string :=
  match n with
  | O => EmptyString
  | S n' => String c (string_repeat c n')
  end.

(** A password of 73 bytes. *)
Definition long_password : string := string_repeat "a"%char 73.

(** The exception the table pane raises for the keyword [show_index]. *)
Definition show_index_refused : exn :=
  TypeError "DataFrame.__init__() got an unexpected keyword argument 'show_index'".

(** The state [close()] and the line printed after it leave. *)
Definition after_close (close_error : ConnectionContext → option exn)
    (c : ConnectionContext) (w : World) : World :=
  set_stdout
    (fun out => out ++ [match close_error c with
                        | None => "SAP HANA connection closed."
                        | Some e => "Error closing SAP HANA connection: " +:+ str_exn e
                        end])
    (set_hana_log (fun l => l ++ [Close c]) w).

(** What a failed [authenticate_user] leaves: [None], and one line on the
    standard output in the in-memory fallback. *)
Definition failed_authentication (username : string) (db : option DbSession) (w : World)
    : result (option user_obj) * World :=
  (Ok None,
   match db with
   | Some _ => w
   | None =>
       set_stdout
         (fun out => out ++ ["Placeholder: Authentication failed for user " +:+ username]) w
   end).

(** ** The script at the end of db/hana_connector.py *)

Section hana_connector_script.
(** [int], the answers of the server to connecting and closing, and the
    text pandas prints for a frame. *)
Variable int : string → result Z.
Variable connect_error : ConnectionContext → option exn.
Variable close_error : ConnectionContext → option exn.
Variable df_to_string : DataFrame → string.

(** [df.head()]: the first five rows. *)
Definition df_head (df : DataFrame) : DataFrame :=
  pd_DataFrame (map (fun column => (column.1, take 5 column.2)) (df_data df)).

Definition newline : string := String (ascii_of_N 10) EmptyString.

Definition hana_connector_script : M unit :=
  print "Attempting to connect to HANA (ensure env vars are set)...";;
  conn ← hana_connector.get_hana_connection int connect_error;
  match conn with
  | Some conn =>
      print (newline +:+ "Fetching sales data...");;
      sales_df ← hana_connector.get_sales_data (Some conn);
      (if negb (df_empty sales_df) then
         print "Sales Data:";;
         print (df_to_string (df_head sales_df))
       else mret tt);;
      print (newline +:+ "Fetching customer data...");;
      customer_df ← hana_connector.get_customer_data (Some conn);
      (if negb (df_empty customer_df) then
         print "Customer Data:";;
         print (df_to_string (df_head customer_df))
       else mret tt);;
      try_except
        (main.close close_error conn;;
         print (newline +:+ "SAP HANA connection closed."))
        (fun e => print ("Error closing connection: " +:+ str_exn e))
  | None =>
      print (newline +:+ "Failed to connect to SAP HANA. Skipping data fetching examples.")
  end.
End hana_connector_script.

(** ** Further vocabulary *)

(** The characters [bytes.hex()] produces, and the value of one. *)
Definition is_hex_digit (c : ascii) : bool :=
  let n := N_of_ascii c in
  ((48 <=? n) && (n <=? 57) || (97 <=? n) && (n <=? 102))%N.

Definition hex_digit_value (c : ascii) : N :=
  let n := N_of_ascii c in
  if (n <? 97)%N then (n - 48)%N else (n - 87)%N.

Fixpoint string_forallb (p : ascii → bool) (s : string) : bool :=
  match s with
  | EmptyString => true
  | String c rest => p c && string_forallb p rest
  end.

(** The bytes a string of hexadecimal digit pairs stands for. *)
Fixpoint unhex (s : string) : bytes :=
  match s with
  | String hi (String lo rest) =>
      String (ascii_of_N (16 * hex_digit_value hi + hex_digit_value lo)) (unhex rest)
  | _ => EmptyString
  end.

(** Two worlds that differ at most in what was printed. *)
Definition same_but_stdout (w w' : World) : Prop :=
  IN_MEMORY_USERS w' = IN_MEMORY_USERS w
  ∧ IN_MEMORY_SESSIONS w' = IN_MEMORY_SESSIONS w
  ∧ database w' = database w
  ∧ environ w' = environ w
  ∧ hana_log w' = hana_log w.

(** No two rows of the sessions table share a primary key. *)
Definition session_ids_distinct (d : Database) : Prop :=
  ∀ k1 k2 c1 c2,
    sessions d !! k1 = Some c1 → sessions d !! k2 = Some c2 →
    sc_id c1 = sc_id c2 → k1 = k2.

(** The four connection settings of an environment, all set and none empty. *)
Definition hana_settings (env : gmap string string) (address port user password : string)
    : Prop :=
  env !! "HANA_ADDRESS" = Some address ∧ env !! "HANA_PORT" = Some port
  ∧ env !! "HANA_USER" = Some user ∧ env !! "HANA_PASSWORD" = Some password
  ∧ address ≠ "" ∧ port ≠ "" ∧ user ≠ "" ∧ password ≠ "".

(** The line [get_hana_connection] prints when [e] is raised while the
    variable [port] reads [port]. *)
Definition connection_error_line (port : string) (e : exn) : string :=
  match e with
  | ValueError _ => "Error: HANA_PORT ('" +:+ port +:+ "') is not a valid integer."
  | _ => "Error connecting to SAP HANA: " +:+ str_exn e
  end.

Definition missing_variables_lines : list string :=
  ["Error: Missing one or more SAP HANA connection environment variables.";
   "Please set HANA_ADDRESS, HANA_PORT, HANA_USER, and HANA_PASSWORD."].


(** * Properties *)

Ltac run :=
  unfold mbind, mret, M_bind, M_ret, bind, ret, raise, lift, gets, modify,
    print, try_except, py_and in *.

(** ** Sessions *)

Section session_properties.
Implicit Types (db : option DbSession) (w : World) (session_id : string).

Lemma stored_session_set_stdout db w f session_id :
  stored_session db (set_stdout f w) session_id = stored_session db w session_id.
Proof. by destruct db. Qed.

(** What [get_session] computes: the stored record filtered by its expiry;
    it never raises and touches nothing but the standard output. *)
Lemma get_session_eq session_id db utcnow w :
  ∃ w',
    get_session session_id db utcnow w =
      (Ok (match stored_session db w session_id with
           | Some s => if (utcnow <? session_obj_expiry s)%Z then Some s else None
           | None => None
           end), w')
    ∧ ∀ k, stored_session db w' k = stored_session db w k.
Proof.
  destruct db as [[]|]; unfold get_session, stored_session, query_session_first; run; cbn.
  - destruct (sessions (database w) !! session_id) as [c|] eqn:E; cbn.
    + destruct (utcnow <? sc_expiry_timestamp c)%Z eqn:Hlt; cbn; eauto.
    + eauto.
  - destruct (IN_MEMORY_SESSIONS w !! session_id) as [d|] eqn:E; cbn.
    + destruct (utcnow <? sd_expiry_timestamp d)%Z eqn:Hlt; cbn; eauto.
    + eauto.
Qed.

Lemma create_session_in_memory user_id urandom utcnow w :
  ∃ w',
    create_session user_id None urandom utcnow w = (Ok (hex urandom), w')
    ∧ IN_MEMORY_SESSIONS w' =
        <[hex urandom := mk_session_data user_id (utcnow + HOUR)]> (IN_MEMORY_SESSIONS w).
Proof. unfold create_session; run; cbn. eauto. Qed.

Lemma create_session_database user_id urandom utcnow w :
  sessions (database w) !! hex urandom = None →
  foreign_keys (database w) = false ∨ user_exists user_id (users (database w)) = true →
  ∃ w',
    create_session user_id (Some SessionLocal) urandom utcnow w = (Ok (hex urandom), w')
    ∧ sessions (database w') =
        <[hex urandom := mk_session_cols (sessions_seq (database w)) user_id (utcnow + HOUR)]>
          (sessions (database w)).
Proof.
  intros Hfresh Hfk. unfold create_session, add_commit_session; run; cbn.
  rewrite Hfresh. cbn.
  replace (foreign_keys (database w) && negb (user_exists user_id (users (database w))))
    with false by (destruct Hfk as [-> | ->]; [reflexivity | by rewrite andb_false_r]).
  cbn. eauto.
Qed.

(** A session that was just created is stored under the returned token,
    with the user id it was created for and the creation time plus one hour. *)
Lemma create_session_stores user_id db urandom utcnow w token w' :
  create_session user_id db urandom utcnow w = (Ok token, w') →
  ∃ s, stored_session db w' token = Some s
       ∧ session_obj_user_id s = user_id
       ∧ session_obj_expiry s = (utcnow + HOUR)%Z.
Proof.
  destruct db as [[]|]; intros Hc.
  - unfold create_session, add_commit_session in Hc; run; cbn in Hc.
    destruct (bool_decide (is_Some (sessions (database w) !! hex urandom))); cbn in Hc;
      [discriminate|].
    destruct (foreign_keys (database w) && _); cbn in Hc; [discriminate|].
    injection Hc as <- <-. cbn. rewrite lookup_insert_eq. cbn. eauto.
  - destruct (create_session_in_memory user_id urandom utcnow w) as (w1 & Hr & Hm).
    rewrite Hr in Hc. injection Hc as <- <-.
    cbn. rewrite Hm, lookup_insert_eq. cbn. eauto.
Qed.

Lemma delete_session_present session_id db w :
  is_Some (stored_session db w session_id) →
  ∃ w', delete_session session_id db w = (Ok true, w')
        ∧ stored_session db w' session_id = None.
Proof.
  intros [s Hs]. destruct db as [[]|]; cbn in Hs.
  - unfold delete_session, query_session_first, delete_commit_session; run; cbn.
    destruct (sessions (database w) !! session_id) as [c|] eqn:E; [|discriminate].
    cbn. eexists; split; [reflexivity|]. cbn.
    replace (filter _ (sessions (database w)) !! session_id) with (@None session_cols);
      [done|].
    symmetry. apply map_lookup_filter_None. right.
    intros c' Hc' HP. cbn in HP. rewrite E in Hc'. injection Hc' as <-. by apply HP.
  - unfold delete_session; run; cbn.
    destruct (IN_MEMORY_SESSIONS w !! session_id) as [d|] eqn:E; [|discriminate].
    rewrite bool_decide_eq_true_2 by eauto.
    eexists; split; [reflexivity|]. cbn. by rewrite lookup_delete_eq.
Qed.

Lemma delete_session_absent session_id db w :
  stored_session db w session_id = None →
  ∃ w', delete_session session_id db w = (Ok false, w')
        ∧ ∀ k, stored_session db w' k = stored_session db w k.
Proof.
  intros Hs. destruct db as [[]|]; cbn in Hs.
  - unfold delete_session, query_session_first; run; cbn.
    destruct (sessions (database w) !! session_id) as [c|] eqn:E; [discriminate|].
    cbn. eauto.
  - unfold delete_session; run; cbn.
    destruct (IN_MEMORY_SESSIONS w !! session_id) as [d|] eqn:E; [discriminate|].
    rewrite bool_decide_eq_false_2 by (intros [? ?]; discriminate).
    eexists; split; [reflexivity|]. done.
Qed.

Lemma delete_session_times_absent n session_id db w :
  stored_session db w session_id = None →
  ∃ w', delete_session_times n session_id db w = (replicate n (Ok false), w')
        ∧ stored_session db w' session_id = None.
Proof.
  revert w. induction n as [|n IH]; intros w Hs; cbn.
  - eauto.
  - destruct (delete_session_absent session_id db w Hs) as (w1 & Hd & Hsame).
    rewrite Hd.
    destruct (IH w1) as (w2 & Hn & Hs2); [by rewrite Hsame|].
    rewrite Hn. eauto.
Qed.
End session_properties.

(** C2. For every user id, [create_session] followed at once (before the
    hour has passed) by [get_session] with the returned token returns a record
    with the same user id, whose expiry is the creation time plus one hour and
    so later than the creation time. [create_session] does return a token: always
    in the in-memory fallback, and with a database whenever the token is not
    yet a key of the sessions table and the user id passes the foreign key
    check, if the engine makes one. *)
Theorem create_session_then_get_session
    (user_id : Z) (db : option DbSession) (urandom : bytes) (t_create t_get : Z) (w : World) :
  (t_get < t_create + HOUR)%Z →
  (∀ token w1,
     create_session user_id db urandom t_create w = (Ok token, w1) →
     ∃ s w2,
       get_session token db t_get w1 = (Ok (Some s), w2)
       ∧ session_obj_user_id s = user_id
       ∧ session_obj_expiry s = (t_create + HOUR)%Z
       ∧ (t_create < session_obj_expiry s)%Z)
  ∧ (db = None
     ∨ (sessions (database w) !! hex urandom = None
        ∧ (foreign_keys (database w) = false
           ∨ user_exists user_id (users (database w)) = true)) →
     ∃ w1, create_session user_id db urandom t_create w = (Ok (hex urandom), w1)).
Proof.
  intros Hsoon. split.
  - intros token w1 Hcreate.
    destruct (create_session_stores _ _ _ _ _ _ _ Hcreate) as (s & Hs & Hu & He).
    destruct (get_session_eq token db t_get w1) as (w2 & Hget & _).
    rewrite Hs, He in Hget.
    rewrite (proj2 (Z.ltb_lt _ _) Hsoon) in Hget.
    exists s, w2. repeat split; try assumption.
    rewrite He. unfold HOUR. lia.
  - intros [-> | [Hfresh Hfk]].
    + destruct (create_session_in_memory user_id urandom t_create w) as (w1 & Hc & _).
      eauto.
    + destruct db as [[]|].
      * destruct (create_session_database user_id urandom t_create w Hfresh Hfk)
          as (w1 & Hc & _). eauto.
      * destruct (create_session_in_memory user_id urandom t_create w) as (w1 & Hc & _).
        eauto.
Qed.

Lemma create_session_then_get_session_witness :
  (∃ w1 s w2,
     create_session 7 None "0123456789abcdef" 1000 empty_world
       = (Ok "30313233343536373839616263646566", w1)
     ∧ get_session "30313233343536373839616263646566" None 1001 w1 = (Ok (Some s), w2)
     ∧ session_obj_user_id s = 7%Z
     ∧ session_obj_expiry s = 3600001000%Z)
  ∧ (∃ w1 s w2,
       create_session 7 (Some SessionLocal) "0123456789abcdef" 1000 one_session_world
         = (Ok "30313233343536373839616263646566", w1)
       ∧ get_session "30313233343536373839616263646566" (Some SessionLocal) 1001 w1
           = (Ok (Some s), w2)
       ∧ session_obj_user_id s = 7%Z
       ∧ session_obj_expiry s = 3600001000%Z).
Proof.
  split.
  - destruct (create_session_then_get_session 7 None "0123456789abcdef" 1000 1001
                empty_world) as [Hget Hret]; [reflexivity|].
    destruct (Hret (or_introl eq_refl)) as (w1 & Hc).
    destruct (Hget _ _ Hc) as (s & w2 & Hg & Hu & He & _).
    exists w1, s, w2. auto.
  - destruct (create_session_then_get_session 7 (Some SessionLocal) "0123456789abcdef"
                1000 1001 one_session_world) as [Hget Hret]; [reflexivity|].
    destruct Hret as (w1 & Hc); [right; split; [|left]; vm_compute; reflexivity|].
    destruct (Hget _ _ Hc) as (s & w2 & Hg & Hu & He & _).
    exists w1, s, w2. auto.
Defined.

(** C3. For every stored session whose expiry is not strictly later than
    the current time, [get_session] with its token returns [None] (and leaves
    the session in the store); [get_session] returns a record only if that
    record is stored under the token and its expiry is later than now. *)
Theorem get_session_expired_absent
    (session_id : string) (db : option DbSession) (utcnow : Z) (w : World) :
  (∀ s,
     stored_session db w session_id = Some s →
     (session_obj_expiry s ≤ utcnow)%Z →
     ∃ w', get_session session_id db utcnow w = (Ok None, w')
           ∧ stored_session db w' session_id = Some s)
  ∧ (∀ r w',
       get_session session_id db utcnow w = (Ok (Some r), w') →
       stored_session db w session_id = Some r ∧ (utcnow < session_obj_expiry r)%Z).
Proof.
  destruct (get_session_eq session_id db utcnow w) as (w1 & Hget & Hsame).
  split.
  - intros s Hs Hexp. rewrite Hs in Hget.
    rewrite (proj2 (Z.ltb_ge _ _) Hexp) in Hget.
    exists w1. split; [exact Hget|]. by rewrite Hsame.
  - intros r w' Hr. rewrite Hget in Hr.
    destruct (stored_session db w session_id) as [s|]; [|discriminate].
    destruct (utcnow <? session_obj_expiry s)%Z eqn:Hlt; [|discriminate].
    injection Hr as -> _. split; [reflexivity|]. by apply Z.ltb_lt.
Qed.

Lemma get_session_expired_absent_witness :
  (∃ w', get_session "00ff" None 5000 one_session_world = (Ok None, w')
         ∧ stored_session None w' "00ff" = Some (SessionDict (mk_session_data 7 5000)))
  ∧ (∃ w', get_session "00ff" (Some SessionLocal) 6000 one_session_world = (Ok None, w')
           ∧ stored_session (Some SessionLocal) w' "00ff"
               = Some (SessionRow (Session.mk 1 "00ff" 7 5000)))
  ∧ (stored_session None one_session_world "00ff"
       = Some (SessionDict (mk_session_data 7 5000)) ∧ (4999 < 5000)%Z).
Proof.
  split; [|split].
  - apply (proj1 (get_session_expired_absent "00ff" None 5000 one_session_world)).
    + vm_compute; reflexivity.
    + cbn; lia.
  - apply (proj1 (get_session_expired_absent "00ff" (Some SessionLocal) 6000
                    one_session_world)).
    + vm_compute; reflexivity.
    + cbn; lia.
  - apply (proj2 (get_session_expired_absent "00ff" None 4999 one_session_world)
             (SessionDict (mk_session_data 7 5000))
             (set_stdout (fun out => out ++ ["Placeholder: Session 00ff is valid."])
                one_session_world)).
    vm_compute; reflexivity.
Defined.

(** C4. For every token stored in the session store, [delete_session]
    returns true exactly once: the first call returns true and removes the
    record, every repeated call on the same token returns false; a call on an
    unknown token returns false and leaves the store as it is. *)
Theorem delete_session_true_once (session_id : string) (db : option DbSession) (w : World) :
  (is_Some (stored_session db w session_id) →
   ∃ w1,
     delete_session session_id db w = (Ok true, w1)
     ∧ stored_session db w1 session_id = None
     ∧ ∀ n, ∃ w2,
         delete_session_times n session_id db w1 = (replicate n (Ok false), w2)
         ∧ stored_session db w2 session_id = None)
  ∧ (stored_session db w session_id = None →
     ∃ w1,
       delete_session session_id db w = (Ok false, w1)
       ∧ ∀ k, stored_session db w1 k = stored_session db w k).
Proof.
  split.
  - intros Hstored.
    destruct (delete_session_present session_id db w Hstored) as (w1 & Hd & Hgone).
    exists w1. repeat split; try assumption.
    intros n. by apply delete_session_times_absent.
  - apply delete_session_absent.
Qed.

Lemma delete_session_true_once_witness :
  (∃ w1 w2,
     delete_session "00ff" None one_session_world = (Ok true, w1)
     ∧ delete_session_times 2 "00ff" None w1 = ([Ok false; Ok false], w2))
  ∧ (∃ w1 w2,
       delete_session "00ff" (Some SessionLocal) one_session_world = (Ok true, w1)
       ∧ delete_session_times 2 "00ff" (Some SessionLocal) w1 = ([Ok false; Ok false], w2))
  ∧ (∃ w1, delete_session "abcd" None one_session_world = (Ok false, w1)).
Proof.
  split; [|split].
  - destruct (proj1 (delete_session_true_once "00ff" None one_session_world))
      as (w1 & Hd & _ & Hn).
    + vm_compute. eauto.
    + destruct (Hn 2%nat) as (w2 & H2 & _). eauto.
  - destruct (proj1 (delete_session_true_once "00ff" (Some SessionLocal) one_session_world))
      as (w1 & Hd & _ & Hn).
    + vm_compute. eauto.
    + destruct (Hn 2%nat) as (w2 & H2 & _). eauto.
  - destruct (proj2 (delete_session_true_once "abcd" None one_session_world))
      as (w1 & Hd & _).
    + vm_compute; reflexivity.
    + eauto.
Defined.

(** ** Users *)

Section user_properties.
Variable bcrypt_hashpw : bytes → bytes → result bytes.
Variable bcrypt_checkpw : bytes → bytes → result bool.

Lemma authenticate_user_unknown username password db w :
  stored_user db w username = None →
  authenticate_user bcrypt_checkpw username password db w
    = failed_authentication username db w.
Proof.
  intros Hu. destruct db as [[]|]; cbn in Hu;
    unfold authenticate_user, query_user_first, failed_authentication; run; cbn.
  - by destruct (users (database w) !! username).
  - by destruct (IN_MEMORY_USERS w !! username).
Qed.

Lemma authenticate_user_mismatch username password db w u :
  stored_user db w username = Some u →
  verify_password bcrypt_checkpw password (encode_utf8 (user_obj_password_hash u))
    = Ok false →
  authenticate_user bcrypt_checkpw username password db w
    = failed_authentication username db w.
Proof.
  intros Hu Hv. destruct db as [[]|]; cbn in Hu;
    unfold authenticate_user, query_user_first, failed_authentication; run;
    unfold verify_password, encode_utf8 in *; cbn.
  - destruct (users (database w) !! username) as [c|]; [|discriminate].
    injection Hu as <-. cbn in *. by rewrite Hv.
  - destruct (IN_MEMORY_USERS w !! username) as [d|]; [|discriminate].
    injection Hu as <-. cbn in *. by rewrite Hv.
Qed.

Lemma authenticate_user_raises username password db w u e :
  stored_user db w username = Some u →
  verify_password bcrypt_checkpw password (encode_utf8 (user_obj_password_hash u))
    = Raise e →
  authenticate_user bcrypt_checkpw username password db w = (Raise e, w).
Proof.
  intros Hu Hv. destruct db as [[]|]; cbn in Hu;
    unfold authenticate_user, query_user_first; run;
    unfold verify_password, encode_utf8 in *; cbn.
  - destruct (users (database w) !! username) as [c|]; [|discriminate].
    injection Hu as <-. cbn in *. by rewrite Hv.
  - destruct (IN_MEMORY_USERS w !! username) as [d|]; [|discriminate].
    injection Hu as <-. cbn in *. by rewrite Hv.
Qed.

Lemma create_user_in_memory username email password gensalt h w :
  hash_password bcrypt_hashpw password gensalt = Ok h →
  create_user bcrypt_hashpw username email password None gensalt w =
    (Ok (UserDict (mk_user_data email (decode_utf8 h))),
     set_IN_MEMORY_USERS (<[username := mk_user_data email (decode_utf8 h)]>)
       (set_stdout
          (fun out => out ++ ["Placeholder: Creating user " +:+ username
                              +:+ " with email " +:+ email]) w)).
Proof.
  intros Hh. unfold create_user; run. rewrite Hh. cbn.
  by rewrite lookup_insert_eq.
Qed.
End user_properties.

(** C5, as the code has it. [authenticate_user] returns [None] when the
    username is not in the store and when it is there and bcrypt answers
    that the password does not match the stored hash, and these two failures
    are the same outcome: the same returned value and the same state, one
    fixed line of output included. When bcrypt raises instead of answering,
    the exception reaches the caller of a stored username, in the state as
    it was, while an unknown username still gives [None]. *)
Theorem authenticate_user_failures_alike
    (bcrypt_checkpw : bytes → bytes → result bool)
    (username password : string) (db : option DbSession) (w : World) :
  (stored_user db w username = None →
   authenticate_user bcrypt_checkpw username password db w
     = failed_authentication username db w)
  ∧ (∀ u,
       stored_user db w username = Some u →
       verify_password bcrypt_checkpw password (encode_utf8 (user_obj_password_hash u))
         = Ok false →
       authenticate_user bcrypt_checkpw username password db w
         = failed_authentication username db w)
  ∧ fst (failed_authentication username db w) = Ok None
  ∧ (∀ u e,
       stored_user db w username = Some u →
       verify_password bcrypt_checkpw password (encode_utf8 (user_obj_password_hash u))
         = Raise e →
       authenticate_user bcrypt_checkpw username password db w = (Raise e, w)).
Proof.
  split; [|split; [|split]].
  - apply authenticate_user_unknown.
  - intros u. apply authenticate_user_mismatch.
  - reflexivity.
  - intros u e. apply authenticate_user_raises.
Qed.

Lemma authenticate_user_failures_alike_witness :
  let unregistered := set_IN_MEMORY_USERS (delete "bob") one_user_world in
  authenticate_user sample_checkpw "bob" "wrong" None one_user_world
    = failed_authentication "bob" None one_user_world
  ∧ authenticate_user sample_checkpw "bob" "wrong" None unregistered
    = failed_authentication "bob" None unregistered
  ∧ authenticate_user sample_checkpw "bob" "wrong" (Some SessionLocal) one_user_world
    = authenticate_user sample_checkpw "mallory" "wrong" (Some SessionLocal) one_user_world
  ∧ authenticate_user refusing_checkpw "bob" long_password (Some SessionLocal) one_user_world
    = (Raise (ValueError "password cannot be longer than 72 bytes, truncate manually if necessary (e.g. my_password[:72])"),
       one_user_world).
Proof.
  intros unregistered.
  pose proof (authenticate_user_failures_alike sample_checkpw "bob" "wrong" None
                one_user_world) as (_ & Hbad & _).
  pose proof (authenticate_user_failures_alike sample_checkpw "bob" "wrong" None
                unregistered) as (Hunknown & _ & _).
  pose proof (authenticate_user_failures_alike sample_checkpw "bob" "wrong"
                (Some SessionLocal) one_user_world) as (_ & Hbad_db & _).
  pose proof (authenticate_user_failures_alike sample_checkpw "mallory" "wrong"
                (Some SessionLocal) one_user_world) as (Hunknown_db & _ & _).
  pose proof (authenticate_user_failures_alike refusing_checkpw "bob" long_password
                (Some SessionLocal) one_user_world) as (_ & _ & _ & Hraise).
  split; [|split; [|split]].
  - apply (Hbad (UserDict (mk_user_data "bob@example.org" "$2b$12$hunter2")));
      vm_compute; reflexivity.
  - apply Hunknown. vm_compute; reflexivity.
  - rewrite (Hbad_db (UserRow (User.mk 1 "bob" "bob@example.org" "$2b$12$hunter2")))
      by (vm_compute; reflexivity).
    rewrite Hunknown_db by (vm_compute; reflexivity).
    reflexivity.
  - apply (Hraise (UserRow (User.mk 1 "bob" "bob@example.org" "$2b$12$hunter2")));
      vm_compute; reflexivity.
Defined.

(** C5 as the specification words it, for every password that is not the
    user's, does not hold: with a password of 73 bytes, which bcrypt
    refuses, a registered username gets the exception and an unknown one
    gets [None], so the caller can tell the two apart. *)
Lemma authenticate_user_failures_differ :
  long_password ≠ "hunter2"
  ∧ fst (authenticate_user refusing_checkpw "bob" long_password None one_user_world)
    = Raise (ValueError "password cannot be longer than 72 bytes, truncate manually if necessary (e.g. my_password[:72])")
  ∧ fst (authenticate_user refusing_checkpw "mallory" long_password None one_user_world)
    = Ok None.
Proof.
  split; [discriminate|]. split; vm_compute; reflexivity.
Qed.

(** C10. In the in-memory fallback, [create_user] on a username that is
    already registered overwrites the record: the mapping holds the new email
    and password hash under that username and nothing else changes, the new
    record is returned, and neither the returned value nor the output tells
    the caller that the name was taken. *)
Theorem create_user_overwrites
    (bcrypt_hashpw : bytes → bytes → result bytes)
    (username email password : string) (gensalt h : bytes) (old : user_data) (w : World) :
  IN_MEMORY_USERS w !! username = Some old →
  hash_password bcrypt_hashpw password gensalt = Ok h →
  let new := mk_user_data email (decode_utf8 h) in
  ∃ w',
    create_user bcrypt_hashpw username email password None gensalt w = (Ok (UserDict new), w')
    ∧ IN_MEMORY_USERS w' !! username = Some new
    ∧ (∀ k, k ≠ username → IN_MEMORY_USERS w' !! k = IN_MEMORY_USERS w !! k)
    ∧ dom (IN_MEMORY_USERS w') = dom (IN_MEMORY_USERS w)
    ∧ stdout w' = stdout w ++ ["Placeholder: Creating user " +:+ username
                               +:+ " with email " +:+ email]
    ∧ ∃ w'',
        create_user bcrypt_hashpw username email password None gensalt
          (set_IN_MEMORY_USERS (delete username) w) = (Ok (UserDict new), w'')
        ∧ stdout w'' = stdout w'.
Proof.
  intros Hold Hh new.
  eexists. split; [by apply create_user_in_memory|]. cbn.
  split; [by rewrite lookup_insert_eq|].
  split; [by intros k Hk; rewrite lookup_insert_ne|].
  split; [by apply dom_insert_lookup_L|].
  split; [reflexivity|].
  eexists. split; [by apply create_user_in_memory|]. reflexivity.
Qed.

Lemma create_user_overwrites_witness :
  ∃ w',
    create_user sample_hashpw "bob" "robert@example.org" "tr0ub4dor" None "$2b$12$"
      one_user_world
      = (Ok (UserDict (mk_user_data "robert@example.org" "$2b$12$tr0ub4dor")), w')
    ∧ IN_MEMORY_USERS w' !! "bob"
      = Some (mk_user_data "robert@example.org" "$2b$12$tr0ub4dor")
    ∧ dom (IN_MEMORY_USERS w') = dom (IN_MEMORY_USERS one_user_world).
Proof.
  destruct (create_user_overwrites sample_hashpw "bob" "robert@example.org" "tr0ub4dor"
              "$2b$12$" "$2b$12$tr0ub4dor"
              (mk_user_data "bob@example.org" "$2b$12$hunter2") one_user_world)
    as (w' & Hc & Hl & _ & Hd & _).
  - vm_compute; reflexivity.
  - reflexivity.
  - exists w'. auto.
Defined.

(** ** The connector *)

Section connector_properties.
Variable int : string → result Z.
Variable connect_error : ConnectionContext → option exn.

Lemma connection_handlers_absent port e w :
  ∃ w', hana_connector.connection_handlers port e w = (Ok None, w').
Proof.
  destruct e; unfold hana_connector.connection_handlers; run; cbn;
    eexists; reflexivity.
Qed.

Lemma get_hana_connection_eq w :
  ∃ w',
    hana_connector.get_hana_connection int connect_error w
      = (Ok (connection_in int connect_error (environ w)), w').
Proof.
  unfold hana_connector.get_hana_connection, hana_connector.getenv, connection_in.
  run. cbn.
  destruct (environ w !! "HANA_ADDRESS") as [address|],
           (environ w !! "HANA_PORT") as [port|],
           (environ w !! "HANA_USER") as [user|],
           (environ w !! "HANA_PASSWORD") as [password|];
    cbn;
    repeat match goal with
           | |- context [(?s =? "")%string] => destruct (s =? "")%string; cbn
           end;
    try (eexists; reflexivity).
  destruct (int port) as [n|e]; [|apply connection_handlers_absent].
  unfold hana_connector.ConnectionContext_new. run. cbn.
  destruct (connect_error _) as [e|]; cbn;
    [apply connection_handlers_absent|eexists; reflexivity].
Qed.

Lemma connection_in_missing env name :
  name ∈ hana_variables → env !! name = None →
  connection_in int connect_error env = None.
Proof.
  unfold hana_variables, connection_in. intros Hin Hnone.
  repeat (apply elem_of_cons in Hin as [-> | Hin]); [..|by apply not_elem_of_nil in Hin];
    rewrite Hnone;
    repeat match goal with
           | |- context [match ?m !! ?k with _ => _ end] => destruct (m !! k)
           end; reflexivity.
Qed.

Lemma connection_in_bad_port env port e :
  env !! "HANA_PORT" = Some port → int port = Raise e →
  connection_in int connect_error env = None.
Proof.
  unfold connection_in. intros -> Hint.
  destruct (env !! "HANA_ADDRESS"), (env !! "HANA_USER"), (env !! "HANA_PASSWORD");
    try reflexivity.
  rewrite Hint. by destruct (forallb _ _).
Qed.

Lemma connection_in_refused env address port user password n e :
  env !! "HANA_ADDRESS" = Some address → env !! "HANA_PORT" = Some port →
  env !! "HANA_USER" = Some user → env !! "HANA_PASSWORD" = Some password →
  int port = Ok n →
  connect_error (mkConnectionContext address n user password) = Some e →
  connection_in int connect_error env = None.
Proof.
  unfold connection_in. intros -> -> -> -> -> ->. by destruct (forallb _ _).
Qed.

Lemma connection_in_handle env c :
  connection_in int connect_error env = Some c →
  ∃ port,
    env !! "HANA_ADDRESS" = Some (cc_address c)
    ∧ env !! "HANA_PORT" = Some port
    ∧ env !! "HANA_USER" = Some (cc_user c)
    ∧ env !! "HANA_PASSWORD" = Some (cc_password c)
    ∧ int port = Ok (cc_port c)
    ∧ connect_error c = None.
Proof.
  unfold connection_in.
  destruct (env !! "HANA_ADDRESS") as [address|]; [|discriminate].
  destruct (env !! "HANA_PORT") as [port|]; [|discriminate].
  destruct (env !! "HANA_USER") as [user|]; [|discriminate].
  destruct (env !! "HANA_PASSWORD") as [password|]; [|discriminate].
  destruct (forallb _ _); [|discriminate].
  destruct (int port) as [n|e] eqn:Hint; [|discriminate].
  destruct (connect_error _) as [e|] eqn:Hc; [discriminate|].
  intros [= <-]. cbn. eauto 10.
Qed.
End connector_properties.

(** C7. [get_hana_connection] never raises. It returns [None] when one
    of the four environment variables is missing, when the text of the port
    is refused by [int], and when opening the connection fails; a handle is
    returned only when the four variables are set, the port parses and the
    connection is established, and it is the handle for those four values. *)
Theorem get_hana_connection_absent_or_handle
    (int : string → result Z) (connect_error : ConnectionContext → option exn) (w : World) :
  ∃ r w',
    hana_connector.get_hana_connection int connect_error w = (Ok r, w')
    ∧ (∀ name, name ∈ hana_variables → environ w !! name = None → r = None)
    ∧ (∀ port e, environ w !! "HANA_PORT" = Some port → int port = Raise e → r = None)
    ∧ (∀ address port user password n e,
         environ w !! "HANA_ADDRESS" = Some address →
         environ w !! "HANA_PORT" = Some port →
         environ w !! "HANA_USER" = Some user →
         environ w !! "HANA_PASSWORD" = Some password →
         int port = Ok n →
         connect_error (mkConnectionContext address n user password) = Some e →
         r = None)
    ∧ (∀ c, r = Some c →
         ∃ port,
           environ w !! "HANA_ADDRESS" = Some (cc_address c)
           ∧ environ w !! "HANA_PORT" = Some port
           ∧ environ w !! "HANA_USER" = Some (cc_user c)
           ∧ environ w !! "HANA_PASSWORD" = Some (cc_password c)
           ∧ int port = Ok (cc_port c)
           ∧ connect_error c = None).
Proof.
  destruct (get_hana_connection_eq int connect_error w) as (w' & Heq).
  exists (connection_in int connect_error (environ w)), w'.
  split; [exact Heq|].
  split; [apply connection_in_missing|].
  split; [apply connection_in_bad_port|].
  split; [apply connection_in_refused|].
  apply connection_in_handle.
Qed.

Lemma get_hana_connection_absent_or_handle_witness :
  fst (hana_connector.get_hana_connection sample_int (fun _ => None) empty_world) = Ok None
  ∧ fst (hana_connector.get_hana_connection sample_int (fun _ => None)
           (mkWorld ∅ ∅ empty_database (<["HANA_PORT" := "thirty"]> sample_environ) [] []))
    = Ok None
  ∧ fst (hana_connector.get_hana_connection sample_int
           (fun _ => Some (Exception "connection refused")) sample_world) = Ok None
  ∧ sample_int "30015" = Ok 30015%Z.
Proof.
  split; [|split; [|split]].
  - destruct (get_hana_connection_absent_or_handle sample_int (fun _ => None) empty_world)
      as (r & w' & Heq & Hmissing & _).
    rewrite Heq. cbn. f_equal.
    apply (Hmissing "HANA_PORT"); [|reflexivity].
    unfold hana_variables. apply elem_of_cons; right. apply elem_of_cons; left. reflexivity.
  - destruct (get_hana_connection_absent_or_handle sample_int (fun _ => None)
                (mkWorld ∅ ∅ empty_database (<["HANA_PORT" := "thirty"]> sample_environ)
                   [] []))
      as (r & w' & Heq & _ & Hport & _).
    rewrite Heq. cbn. f_equal.
    apply (Hport "thirty" (ValueError "invalid literal for int() with base 10"));
      vm_compute; reflexivity.
  - destruct (get_hana_connection_absent_or_handle sample_int
                (fun _ => Some (Exception "connection refused")) sample_world)
      as (r & w' & Heq & _ & _ & Hrefused & _).
    rewrite Heq. cbn. f_equal.
    apply (Hrefused "hana.example.org" "30015" "dashboard" "secret" 30015%Z
             (Exception "connection refused")); vm_compute; reflexivity.
  - destruct (get_hana_connection_absent_or_handle sample_int (fun _ => None) sample_world)
      as (r & w' & Heq & _ & _ & _ & Hhandle).
    destruct (Hhandle sample_handle) as (port & _ & Hp & _ & _ & Hint & _).
    + assert (Hrun : hana_connector.get_hana_connection sample_int (fun _ => None)
                       sample_world
                     = (Ok (Some sample_handle),
                        set_stdout (fun out => out ++ ["Successfully connected to SAP HANA."])
                          (set_hana_log (fun l => l ++ [Connect sample_handle]) sample_world)))
        by (vm_compute; reflexivity).
      rewrite Hrun in Heq. by injection Heq as <- _.
    + assert (port = "30015") as -> by (vm_compute in Hp; congruence).
      exact Hint.
Defined.

(** C9. [get_sales_data] returns an empty table when the handle is
    absent; for every handle it returns the same mock table of five rows
    with the columns OrderID, Product, Quantity and Price, and no call
    reaches the HANA client. *)
Theorem get_sales_data_mock :
  let mock := pd_DataFrame hana_connector.sales_mock_data in
  (∀ w, ∃ w',
     hana_connector.get_sales_data None w = (Ok (pd_DataFrame []), w')
     ∧ hana_log w' = hana_log w)
  ∧ df_empty (pd_DataFrame []) = true
  ∧ (∀ cc w, ∃ w',
       hana_connector.get_sales_data (Some cc) w = (Ok mock, w')
       ∧ hana_log w' = hana_log w)
  ∧ df_columns mock = ["OrderID"; "Product"; "Quantity"; "Price"]
  ∧ df_len mock = 5%nat
  ∧ Forall (fun column => length column.2 = 5%nat) (df_data mock)
  ∧ df_empty mock = false.
Proof.
  cbv zeta. split; [|split; [|split; [|split; [|split; [|split]]]]].
  - intros w. unfold hana_connector.get_sales_data; run; cbn. eexists; split; reflexivity.
  - reflexivity.
  - intros cc w. unfold hana_connector.get_sales_data; run; cbn.
    eexists; split; reflexivity.
  - reflexivity.
  - reflexivity.
  - repeat constructor.
  - reflexivity.
Qed.

(** ** The dashboard *)

Section dashboard_properties.
Variable get_hana_connection : M (option ConnectionContext).
Variable get_sales_data : option ConnectionContext → M DataFrame.
Variable close_error : ConnectionContext → option exn.

Local Abbreviation build :=
  (main.create_sales_dashboard get_hana_connection get_sales_data close_error).

Lemma dashboard_no_user w :
  build None w = (Ok (Pane (Markdown "## Error: No user context provided.")), w).
Proof. reflexivity. Qed.

Lemma dashboard_no_handle user w w1 :
  get_hana_connection w = (Ok None, w1) →
  build (Some user) w =
    (Ok (Column
           [Markdown ("# Sales Dashboard for " +:+ main.username user);
            Alert "Error: Could not connect to SAP HANA. Please check connection details or environment variables." "danger";
            DataFrame_pane (pd_DataFrame []) "Sales Data" 800 300 None]
           "stretch_both"), w1).
Proof.
  intros Hconn. unfold main.create_sales_dashboard; run. rewrite Hconn. reflexivity.
Qed.

(** The build once the connector handed over a handle and the fetch gave
    an empty table: [close] runs in the state the fetch left, the view is
    returned whatever [close] does, and its last pane is the table. *)
Lemma dashboard_with_handle user w c w1 df w2 :
  get_hana_connection w = (Ok (Some c), w1) →
  get_sales_data (Some c) w1 = (Ok df, w2) →
  df_empty df = true →
  ∃ v,
    build (Some user) w = (Ok v, after_close close_error c w2)
    ∧ view_tables v = [pd_DataFrame []]
    ∧ last (view_panes v) = Some main.empty_sales_pane
    ∧ view_alerts "danger" v = []
    ∧ view_alerts "warning" v =
        "No sales data available or an error occurred during fetching."
        :: match close_error c with
           | Some e => ["Warning: Could not close SAP HANA connection: " +:+ str_exn e]
           | None => []
           end.
Proof.
  intros Hconn Hfetch Hempty.
  unfold main.create_sales_dashboard, main.close, after_close; run.
  rewrite Hconn, Hfetch, Hempty.
  destruct (close_error c) as [e|]; cbn;
    eexists; (split; [reflexivity|]); cbn; auto 10.
Qed.

(** The same with a table that is not empty: the table pane is asked for
    with [show_index], the constructor raises, and the build ends there, in
    the state the fetch left. *)
Lemma dashboard_pane_refused user w c w1 df w2 :
  get_hana_connection w = (Ok (Some c), w1) →
  get_sales_data (Some c) w1 = (Ok df, w2) →
  df_empty df = false →
  build (Some user) w = (Raise show_index_refused, w2).
Proof.
  intros Hconn Hfetch Hfull.
  unfold main.create_sales_dashboard; run.
  by rewrite Hconn, Hfetch, Hfull.
Qed.
End dashboard_properties.

(** C6. [create_sales_dashboard] without a user yields the error view;
    with a user and no handle from the connector, a danger notice and an
    empty table; with a handle and an empty fetched table, a warning notice
    and an empty table. With a handle and a non-empty fetched table the
    table is not shown: the table pane is asked for with the keyword
    [show_index], which it does not have, so the constructor raises
    [TypeError] and the builder returns no view. *)
Theorem create_sales_dashboard_views
    (get_hana_connection : M (option ConnectionContext))
    (get_sales_data : option ConnectionContext → M DataFrame)
    (close_error : ConnectionContext → option exn) :
  let build := main.create_sales_dashboard get_hana_connection get_sales_data close_error in
  (∀ w, build None w = (Ok (Pane (Markdown "## Error: No user context provided.")), w))
  ∧ (∀ user w w1,
       get_hana_connection w = (Ok None, w1) →
       ∃ v,
         build (Some user) w = (Ok v, w1)
         ∧ view_alerts "danger" v =
             ["Error: Could not connect to SAP HANA. Please check connection details or environment variables."]
         ∧ view_tables v = [pd_DataFrame []])
  ∧ (∀ user w c w1 df w2,
       get_hana_connection w = (Ok (Some c), w1) →
       get_sales_data (Some c) w1 = (Ok df, w2) →
       df_empty df = true →
       ∃ v w3,
         build (Some user) w = (Ok v, w3)
         ∧ "No sales data available or an error occurred during fetching."
             ∈ view_alerts "warning" v
         ∧ view_tables v = [pd_DataFrame []])
  ∧ (∀ user w c w1 df w2,
       get_hana_connection w = (Ok (Some c), w1) →
       get_sales_data (Some c) w1 = (Ok df, w2) →
       df_empty df = false →
       build (Some user) w
         = (Raise (TypeError
                     "DataFrame.__init__() got an unexpected keyword argument 'show_index'"),
            w2)).
Proof.
  cbv zeta. split; [|split; [|split]].
  - apply dashboard_no_user.
  - intros user w w1 Hconn.
    eexists. split; [by apply dashboard_no_handle|]. split; reflexivity.
  - intros user w c w1 df w2 Hconn Hfetch Hempty.
    destruct (dashboard_with_handle _ _ close_error user w c w1 df w2 Hconn Hfetch Hempty)
      as (v & Hbuild & Htables & _ & _ & Hwarn).
    exists v, (after_close close_error c w2). split; [exact Hbuild|].
    split; [|exact Htables].
    rewrite Hwarn. apply elem_of_cons. by left.
  - intros user w c w1 df w2. apply dashboard_pane_refused.
Qed.

Lemma create_sales_dashboard_views_witness :
  let connect := hana_connector.get_hana_connection sample_int (fun _ => None) in
  (∃ v w',
     main.create_sales_dashboard connect hana_connector.get_sales_data (fun _ => None)
       (Some testuser) empty_world = (Ok v, w')
     ∧ view_tables v = [pd_DataFrame []])
  ∧ (∃ v w',
       main.create_sales_dashboard connect (fun _ => mret (pd_DataFrame []))
         (fun _ => None) (Some testuser) sample_world = (Ok v, w')
       ∧ view_tables v = [pd_DataFrame []])
  ∧ (∃ w',
       main.create_sales_dashboard connect hana_connector.get_sales_data (fun _ => None)
         (Some testuser) sample_world = (Raise show_index_refused, w')
       ∧ hana_log w' = [Connect sample_handle]).
Proof.
  intros connect. split; [|split].
  - destruct (create_sales_dashboard_views connect hana_connector.get_sales_data
                (fun _ => None)) as (_ & Hnone & _).
    destruct (Hnone testuser empty_world
                (set_stdout
                   (fun out => out ++
                      ["Error: Missing one or more SAP HANA connection environment variables.";
                       "Please set HANA_ADDRESS, HANA_PORT, HANA_USER, and HANA_PASSWORD."])
                   empty_world))
      as (v & Hbuild & _ & Htables); [vm_compute; reflexivity|].
    eauto.
  - destruct (create_sales_dashboard_views connect (fun _ => mret (pd_DataFrame []))
                (fun _ => None)) as (_ & _ & Hempty & _).
    destruct (Hempty testuser sample_world sample_handle
                (set_stdout (fun out => out ++ ["Successfully connected to SAP HANA."])
                   (set_hana_log (fun l => l ++ [Connect sample_handle]) sample_world))
                (pd_DataFrame [])
                (set_stdout (fun out => out ++ ["Successfully connected to SAP HANA."])
                   (set_hana_log (fun l => l ++ [Connect sample_handle]) sample_world)))
      as (v & w3 & Hbuild & _ & Htables);
      [vm_compute; reflexivity | reflexivity | reflexivity |].
    eauto.
  - destruct (create_sales_dashboard_views connect hana_connector.get_sales_data
                (fun _ => None)) as (_ & _ & _ & Hfull).
    eexists. split.
    + apply (Hfull testuser sample_world sample_handle
               (set_stdout (fun out => out ++ ["Successfully connected to SAP HANA."])
                  (set_hana_log (fun l => l ++ [Connect sample_handle]) sample_world))
               (pd_DataFrame hana_connector.sales_mock_data));
        [vm_compute; reflexivity | vm_compute; reflexivity | reflexivity].
    + reflexivity.
Defined.

(** C8, as the code has it. In every dashboard build in which the
    connector returned a handle and the fetch returned a table that is
    empty, the builder calls [close] on that handle once, in the state the
    fetch left, so after the fetch and as the last call to the client; the
    view is returned whether or not [close] raises, with the table pane as
    its last pane, and it carries the notice about closing exactly when
    [close] raised. In a build in which the connector returned no handle,
    nothing follows the attempt: the view is returned in the state the
    connector left. *)
Theorem create_sales_dashboard_closes_handle
    (get_hana_connection : M (option ConnectionContext))
    (get_sales_data : option ConnectionContext → M DataFrame)
    (close_error : ConnectionContext → option exn)
    (user : main.MockUser) (w w1 : World) :
  let build := main.create_sales_dashboard get_hana_connection get_sales_data close_error in
  (∀ c df w2,
     get_hana_connection w = (Ok (Some c), w1) →
     get_sales_data (Some c) w1 = (Ok df, w2) →
     df_empty df = true →
     ∃ v,
       build (Some user) w
         = (Ok v,
            set_stdout
              (fun out => out ++ [match close_error c with
                                  | None => "SAP HANA connection closed."
                                  | Some e =>
                                      "Error closing SAP HANA connection: " +:+ str_exn e
                                  end])
              (set_hana_log (fun l => l ++ [Close c]) w2))
       ∧ last (view_panes v)
         = Some (DataFrame_pane (pd_DataFrame []) "Sales Data" 800 300 None)
       ∧ view_alerts "warning" v =
           "No sales data available or an error occurred during fetching."
           :: match close_error c with
              | Some e => ["Warning: Could not close SAP HANA connection: " +:+ str_exn e]
              | None => []
              end)
  ∧ (get_hana_connection w = (Ok None, w1) →
     ∃ v,
       build (Some user) w = (Ok v, w1)
       ∧ last (view_panes v)
         = Some (DataFrame_pane (pd_DataFrame []) "Sales Data" 800 300 None)).
Proof.
  cbv zeta. split.
  - intros c df w2 Hconn Hfetch Hempty.
    destruct (dashboard_with_handle get_hana_connection get_sales_data close_error
                user w c w1 df w2 Hconn Hfetch Hempty)
      as (v & Hbuild & _ & Hlast & _ & Hwarn).
    exists v. auto.
  - intros Hconn. eexists. split; [by apply dashboard_no_handle|]. reflexivity.
Qed.

Lemma create_sales_dashboard_closes_handle_witness :
  let connect := hana_connector.get_hana_connection sample_int (fun _ => None) in
  (∃ v w3,
     main.create_sales_dashboard connect (fun _ => mret (pd_DataFrame []))
       (fun _ => Some (Exception "socket closed")) (Some testuser) sample_world
     = (Ok v, w3)
     ∧ hana_log w3 = [Connect sample_handle; Close sample_handle]
     ∧ view_alerts "warning" v
       = ["No sales data available or an error occurred during fetching.";
          "Warning: Could not close SAP HANA connection: socket closed"]
     ∧ last (view_panes v)
       = Some (DataFrame_pane (pd_DataFrame []) "Sales Data" 800 300 None))
  ∧ (∃ v w1,
       main.create_sales_dashboard connect (fun _ => mret (pd_DataFrame []))
         (fun _ => Some (Exception "socket closed")) (Some testuser) empty_world
       = (Ok v, w1)
       ∧ hana_log w1 = []).
Proof.
  intros connect. split.
  - destruct (create_sales_dashboard_closes_handle connect (fun _ => mret (pd_DataFrame []))
                (fun _ => Some (Exception "socket closed")) testuser sample_world
                (set_stdout (fun out => out ++ ["Successfully connected to SAP HANA."])
                   (set_hana_log (fun l => l ++ [Connect sample_handle]) sample_world)))
      as [Hhandle _].
    destruct (Hhandle sample_handle (pd_DataFrame [])
                (set_stdout (fun out => out ++ ["Successfully connected to SAP HANA."])
                   (set_hana_log (fun l => l ++ [Connect sample_handle]) sample_world)))
      as (v & Hbuild & Hlast & Hwarn);
      [vm_compute; reflexivity | reflexivity | reflexivity |].
    eexists v, _. split; [exact Hbuild|]. split; [reflexivity|]. auto.
  - destruct (create_sales_dashboard_closes_handle connect (fun _ => mret (pd_DataFrame []))
                (fun _ => Some (Exception "socket closed")) testuser empty_world
                (set_stdout
                   (fun out => out ++
                      ["Error: Missing one or more SAP HANA connection environment variables.";
                       "Please set HANA_ADDRESS, HANA_PORT, HANA_USER, and HANA_PASSWORD."])
                   empty_world))
      as [_ Hnone].
    destruct Hnone as (v & Hbuild & _); [vm_compute; reflexivity|].
    eauto.
Defined.

(** C8 as the specification words it, for every build in which a
    connection was attempted, does not hold: here a build attempts a
    connection, the server refuses it, and nothing is released afterwards.
    The only call that reached the client is the attempt to connect. *)
Lemma connection_attempt_without_close :
  ∃ v w',
    main.create_sales_dashboard
      (hana_connector.get_hana_connection sample_int
         (fun _ => Some (Exception "connection refused")))
      hana_connector.get_sales_data (fun _ => None) (Some testuser) sample_world
      = (Ok v, w')
    ∧ hana_log w' = [Connect sample_handle]
    ∧ ¬ ∃ c, Close c ∈ hana_log w'.
Proof.
  do 2 eexists. split; [vm_compute; reflexivity|]. split; [reflexivity|].
  intros [c Hc]. cbn in Hc.
  apply list_elem_of_singleton in Hc. discriminate.
Qed.

(** * Further properties *)

(** ** Session tokens *)

Lemma hex_pair c :
  is_hex_digit (hex_digit (N_of_ascii c / 16)) = true
  ∧ is_hex_digit (hex_digit (N_of_ascii c mod 16)) = true
  ∧ ascii_of_N (16 * hex_digit_value (hex_digit (N_of_ascii c / 16))
                + hex_digit_value (hex_digit (N_of_ascii c mod 16))) = c.
Proof. destruct c as [[] [] [] [] [] [] [] []]; vm_compute; auto. Qed.

Lemma hex_length b : String.length (hex b) = (2 * String.length b)%nat.
Proof. induction b as [|c b IH]; cbn; [reflexivity|]. rewrite IH. lia. Qed.

Lemma hex_digits b : string_forallb is_hex_digit (hex b) = true.
Proof.
  induction b as [|c b IH]; [reflexivity|].
  destruct (hex_pair c) as (Hhi & Hlo & _).
  cbn [hex string_forallb]. by rewrite Hhi, Hlo, IH.
Qed.

Lemma unhex_hex b : unhex (hex b) = b.
Proof.
  induction b as [|c b IH]; [reflexivity|].
  destruct (hex_pair c) as (_ & _ & Hc).
  cbn [hex unhex]. by rewrite Hc, IH.
Qed.

Lemma hex_inj b1 b2 : hex b1 = hex b2 → b1 = b2.
Proof. intros H. rewrite <- (unhex_hex b1), <- (unhex_hex b2). by rewrite H. Qed.

Lemma create_session_token user_id db urandom utcnow w token w' :
  create_session user_id db urandom utcnow w = (Ok token, w') → token = hex urandom.
Proof.
  destruct db as [[]|]; unfold create_session, add_commit_session; run; cbn.
  - destruct (bool_decide _); cbn; [discriminate|].
    destruct (foreign_keys (database w) && _); cbn; [discriminate|].
    by intros [= <- _].
  - by intros [= <- _].
Qed.

(** Whatever [create_session] does, it leaves the records under the other
    tokens, and all users, as they were. *)
Lemma create_session_other user_id db urandom utcnow w r w' :
  create_session user_id db urandom utcnow w = (r, w') →
  (∀ k, k ≠ hex urandom → stored_session db w' k = stored_session db w k)
  ∧ ∀ db' name, stored_user db' w' name = stored_user db' w name.
Proof.
  destruct db as [[]|]; unfold create_session, add_commit_session; run; cbn.
  - destruct (bool_decide _); cbn; [by intros [= <- <-]|].
    destruct (foreign_keys (database w) && _); cbn; [by intros [= <- <-]|].
    intros [= <- <-]. split.
    + intros k Hk. cbn. by rewrite lookup_insert_ne.
    + by intros [[]|] name.
  - intros [= <- <-]. split.
    + intros k Hk. cbn. by rewrite lookup_insert_ne.
    + by intros [[]|] name.
Qed.

(** X1. The token [create_session] returns is the hexadecimal text of the
    random bytes: twice as many characters as bytes (32 for the 16 of
    [os.urandom(16)]), all of them digits or letters a to f, and the bytes
    can be read back from it. *)
Theorem create_session_token_is_hex
    (user_id : Z) (db : option DbSession) (urandom : bytes) (utcnow : Z) (w : World)
    (token : string) (w' : World) :
  create_session user_id db urandom utcnow w = (Ok token, w') →
  String.length token = (2 * String.length urandom)%nat
  ∧ string_forallb is_hex_digit token = true
  ∧ unhex token = urandom.
Proof.
  intros Hc. apply create_session_token in Hc as ->.
  auto using hex_length, hex_digits, unhex_hex.
Qed.

Lemma create_session_token_is_hex_witness :
  String.length "30313233343536373839616263646566" = 32%nat
  ∧ string_forallb is_hex_digit "30313233343536373839616263646566" = true
  ∧ unhex "30313233343536373839616263646566" = "0123456789abcdef".
Proof.
  apply (create_session_token_is_hex 7 None "0123456789abcdef" 1000 empty_world
           "30313233343536373839616263646566"
           (set_IN_MEMORY_SESSIONS
              (<["30313233343536373839616263646566" := mk_session_data 7 3600001000]>)
              (set_stdout
                 (fun out => out ++
                    ["Placeholder: Creating session 30313233343536373839616263646566 for user_id 7"])
                 empty_world))).
  vm_compute; reflexivity.
Defined.

(** X2. Two sessions created one after the other from different random
    bytes get different tokens, and after the second creation both are
    stored, each with its own user id and expiry. *)
Theorem sessions_of_distinct_random_bytes_coexist
    (user1 user2 : Z) (db : option DbSession) (urandom1 urandom2 : bytes) (t1 t2 : Z)
    (w w1 w2 : World) (token1 token2 : string) :
  urandom1 ≠ urandom2 →
  create_session user1 db urandom1 t1 w = (Ok token1, w1) →
  create_session user2 db urandom2 t2 w1 = (Ok token2, w2) →
  token1 ≠ token2
  ∧ ∃ s1 s2,
      stored_session db w2 token1 = Some s1
      ∧ session_obj_user_id s1 = user1 ∧ session_obj_expiry s1 = (t1 + HOUR)%Z
      ∧ stored_session db w2 token2 = Some s2
      ∧ session_obj_user_id s2 = user2 ∧ session_obj_expiry s2 = (t2 + HOUR)%Z.
Proof.
  intros Hne Hc1 Hc2.
  pose proof (create_session_token _ _ _ _ _ _ _ Hc1) as ->.
  pose proof (create_session_token _ _ _ _ _ _ _ Hc2) as ->.
  assert (Htok : hex urandom1 ≠ hex urandom2) by (intros H; by apply Hne, hex_inj).
  split; [exact Htok|].
  destruct (create_session_stores _ _ _ _ _ _ _ Hc1) as (s1 & Hs1 & Hu1 & He1).
  destruct (create_session_stores _ _ _ _ _ _ _ Hc2) as (s2 & Hs2 & Hu2 & He2).
  destruct (create_session_other _ _ _ _ _ _ _ Hc2) as [Hother _].
  exists s1, s2. rewrite Hother by exact Htok. auto 10.
Qed.

Lemma sessions_of_distinct_random_bytes_coexist_witness :
  ∃ w1 w2 s1 s2,
    create_session 7 None "A" 1000 empty_world = (Ok "41", w1)
    ∧ create_session 8 None "B" 2000 w1 = (Ok "42", w2)
    ∧ stored_session None w2 "41" = Some s1 ∧ session_obj_user_id s1 = 7%Z
    ∧ stored_session None w2 "42" = Some s2 ∧ session_obj_user_id s2 = 8%Z.
Proof.
  destruct (create_session_in_memory 7 "A" 1000 empty_world) as (w1 & Hc1 & _).
  destruct (create_session_in_memory 8 "B" 2000 w1) as (w2 & Hc2 & _).
  destruct (sessions_of_distinct_random_bytes_coexist 7 8 None "A" "B" 1000 2000
              empty_world w1 w2 "41" "42")
    as (_ & s1 & s2 & Hs1 & Hu1 & _ & Hs2 & Hu2 & _);
    [discriminate | exact Hc1 | exact Hc2 |].
  exists w1, w2, s1, s2. auto 10.
Defined.

(** ** Sessions over time *)

Lemma delete_session_gone session_id db w r w1 :
  delete_session session_id db w = (r, w1) → stored_session db w1 session_id = None.
Proof.
  intros Hd. destruct (stored_session db w session_id) as [s|] eqn:Hs.
  - destruct (delete_session_present session_id db w) as (w' & Hd' & Hgone); [by eauto|].
    rewrite Hd' in Hd. by injection Hd as _ <-.
  - destruct (delete_session_absent session_id db w Hs) as (w' & Hd' & Hsame).
    rewrite Hd' in Hd. injection Hd as _ <-. by rewrite Hsame.
Qed.

Lemma delete_session_other session_id db w r w1 k :
  k ≠ session_id →
  db = None ∨ session_ids_distinct (database w) →
  delete_session session_id db w = (r, w1) →
  stored_session db w1 k = stored_session db w k.
Proof.
  intros Hk Hwf. destruct db as [[]|].
  - destruct Hwf as [|Hwf]; [discriminate|].
    unfold delete_session, query_session_first, delete_commit_session; run; cbn.
    destruct (sessions (database w) !! session_id) as [c|] eqn:E; cbn;
      [|by intros [= _ <-]].
    intros [= _ <-]. cbn. f_equal.
    destruct (sessions (database w) !! k) as [c'|] eqn:E'.
    + apply map_lookup_filter_Some_2; [exact E'|]. cbn. intros Hid.
      apply Hk. by apply (Hwf k session_id c' c).
    + apply map_lookup_filter_None_2. by left.
  - unfold delete_session; run; cbn.
    destruct (bool_decide _); cbn; intros [= _ <-]; cbn; [|reflexivity].
    by rewrite lookup_delete_ne.
Qed.

Lemma delete_session_users session_id db w r w1 db' name :
  delete_session session_id db w = (r, w1) →
  stored_user db' w1 name = stored_user db' w name.
Proof.
  destruct db as [[]|].
  - unfold delete_session, query_session_first, delete_commit_session; run; cbn.
    destruct (sessions (database w) !! session_id); cbn; intros [= _ <-];
      by destruct db' as [[]|].
  - unfold delete_session; run; cbn.
    destruct (bool_decide _); cbn; intros [= _ <-]; by destruct db' as [[]|].
Qed.

(** X3. A session created at time [t_create] is accepted by [get_session]
    at every time before [t_create] plus one hour and at no time from then
    on: the lifetime is exactly one hour, the boundary excluded. *)
Theorem session_valid_for_one_hour
    (user_id : Z) (db : option DbSession) (urandom : bytes) (t_create : Z)
    (w w1 : World) (token : string) :
  create_session user_id db urandom t_create w = (Ok token, w1) →
  ∃ s,
    session_obj_user_id s = user_id
    ∧ ∀ t, ∃ w2,
        get_session token db t w1
          = (Ok (if (t <? t_create + HOUR)%Z then Some s else None), w2).
Proof.
  intros Hc.
  destruct (create_session_stores _ _ _ _ _ _ _ Hc) as (s & Hs & Hu & He).
  exists s. split; [exact Hu|]. intros t.
  destruct (get_session_eq token db t w1) as (w2 & Hget & _).
  rewrite Hs, He in Hget. eauto.
Qed.

Lemma session_valid_for_one_hour_witness :
  ∃ w1 s w2 w3,
    create_session 7 None "A" 1000 empty_world = (Ok "41", w1)
    ∧ get_session "41" None 3600000999 w1 = (Ok (Some s), w2)
    ∧ get_session "41" None 3600001000 w1 = (Ok None, w3).
Proof.
  destruct (create_session_in_memory 7 "A" 1000 empty_world) as (w1 & Hc & _).
  destruct (session_valid_for_one_hour 7 None "A" 1000 empty_world w1 "41" Hc)
    as (s & _ & Hget).
  destruct (Hget 3600000999%Z) as (w2 & H2).
  destruct (Hget 3600001000%Z) as (w3 & H3).
  exists w1, s, w2, w3. auto.
Defined.

(** X4. After [delete_session], whatever it returned, [get_session] no
    longer accepts the token, at any time. *)
Theorem deleted_session_is_rejected
    (session_id : string) (db : option DbSession) (w w1 : World) (r : result bool) :
  delete_session session_id db w = (r, w1) →
  ∀ utcnow, ∃ w2, get_session session_id db utcnow w1 = (Ok None, w2).
Proof.
  intros Hd utcnow.
  destruct (get_session_eq session_id db utcnow w1) as (w2 & Hget & _).
  rewrite (delete_session_gone _ _ _ _ _ Hd) in Hget. eauto.
Qed.

Lemma deleted_session_is_rejected_witness :
  ∃ w1 w2,
    delete_session "00ff" (Some SessionLocal) one_session_world = (Ok true, w1)
    ∧ get_session "00ff" (Some SessionLocal) 0 w1 = (Ok None, w2).
Proof.
  destruct (delete_session_present "00ff" (Some SessionLocal) one_session_world)
    as (w1 & Hd & _); [vm_compute; eauto|].
  destruct (deleted_session_is_rejected "00ff" (Some SessionLocal) one_session_world w1
              (Ok true) Hd 0%Z) as (w2 & Hg).
  eauto.
Defined.

(** X5. [delete_session] removes no other session and no user: the record
    under every other token is as before. With a database this needs the
    primary keys of the sessions table to be distinct, the row being deleted
    by primary key. *)
Theorem delete_session_keeps_others
    (session_id : string) (db : option DbSession) (w w1 : World) (r : result bool) :
  db = None ∨ session_ids_distinct (database w) →
  delete_session session_id db w = (r, w1) →
  (∀ k, k ≠ session_id → stored_session db w1 k = stored_session db w k)
  ∧ ∀ db' name, stored_user db' w1 name = stored_user db' w name.
Proof.
  intros Hwf Hd. split.
  - intros k Hk. by apply (delete_session_other session_id db w r w1 k).
  - intros db' name. by apply (delete_session_users session_id db w r w1).
Qed.

Lemma delete_session_keeps_others_witness :
  let w1 := set_IN_MEMORY_SESSIONS (<["41" := mk_session_data 7 3600001000]>)
              one_session_world in
  let w2 := set_stdout (fun out => out ++ ["Placeholder: Deleted session 00ff"])
              (set_IN_MEMORY_SESSIONS (delete "00ff") w1) in
  stored_session None w2 "41" = Some (SessionDict (mk_session_data 7 3600001000))
  ∧ session_ids_distinct (database one_session_world).
Proof.
  intros w1 w2.
  assert (Hdistinct : session_ids_distinct (database one_session_world)).
  { intros k1 k2 c1 c2 H1 H2 _. cbn in H1, H2.
    apply lookup_insert_Some in H1 as [[<- _]|[_ H1]]; [|by rewrite lookup_empty in H1].
    apply lookup_insert_Some in H2 as [[<- _]|[_ H2]]; [|by rewrite lookup_empty in H2].
    reflexivity. }
  split; [|exact Hdistinct].
  destruct (delete_session_keeps_others "00ff" None w1 w2 (Ok true) (or_introl eq_refl))
    as [Hkeep _]; [vm_compute; reflexivity|].
  destruct (delete_session_keeps_others "beef" (Some SessionLocal) one_session_world
              one_session_world (Ok false) (or_intror Hdistinct))
    as [Hkeep_db _]; [vm_compute; reflexivity|].
  rewrite (Hkeep "41") by discriminate. vm_compute; reflexivity.
Defined.

(** X6. A token that is already taken: the in-memory fallback replaces the
    session stored under it by the new one, without a sign to the caller;
    with a database the unique column makes [commit] raise and the table
    stays as it is. *)
Theorem create_session_taken_token
    (user_id : Z) (urandom : bytes) (utcnow : Z) (w : World) :
  (is_Some (IN_MEMORY_SESSIONS w !! hex urandom) →
   ∃ w',
     create_session user_id None urandom utcnow w = (Ok (hex urandom), w')
     ∧ IN_MEMORY_SESSIONS w' !! hex urandom
       = Some (mk_session_data user_id (utcnow + HOUR))
     ∧ dom (IN_MEMORY_SESSIONS w') = dom (IN_MEMORY_SESSIONS w))
  ∧ (is_Some (sessions (database w) !! hex urandom) →
     create_session user_id (Some SessionLocal) urandom utcnow w
       = (Raise (IntegrityError "UNIQUE constraint failed"), w)).
Proof.
  split.
  - intros Htaken.
    destruct (create_session_in_memory user_id urandom utcnow w) as (w' & Hc & Hm).
    exists w'. split; [exact Hc|]. rewrite Hm.
    split; [apply lookup_insert_eq | by apply dom_insert_lookup_L].
  - intros Htaken. unfold create_session, add_commit_session; run; cbn.
    by rewrite bool_decide_eq_true_2.
Qed.

Lemma create_session_taken_token_witness :
  (∃ w',
     create_session 9 None (String (ascii_of_N 0) (String (ascii_of_N 255) "")) 0
       one_session_world = (Ok "00ff", w')
     ∧ IN_MEMORY_SESSIONS w' !! "00ff" = Some (mk_session_data 9 3600000000))
  ∧ create_session 9 (Some SessionLocal) (String (ascii_of_N 0) (String (ascii_of_N 255) ""))
      0 one_session_world
    = (Raise (IntegrityError "UNIQUE constraint failed"), one_session_world).
Proof.
  pose proof (create_session_taken_token 9
                (String (ascii_of_N 0) (String (ascii_of_N 255) "")) 0 one_session_world)
    as [Hmem Hdb].
  split.
  - destruct Hmem as (w' & Hc & Hl & _); [vm_compute; eauto|]. eauto.
  - apply Hdb. vm_compute; eauto.
Defined.



(** ** Users: registration and login *)

Section more_user_properties.
Variable bcrypt_hashpw : bytes → bytes → result bytes.
Variable bcrypt_checkpw : bytes → bytes → result bool.


Lemma authenticate_user_accepts username password db w u :
  stored_user db w username = Some u →
  verify_password bcrypt_checkpw password (encode_utf8 (user_obj_password_hash u))
    = Ok true →
  ∃ w', authenticate_user bcrypt_checkpw username password db w = (Ok (Some u), w').
Proof.
  intros Hu Hv. destruct db as [[]|]; cbn in Hu;
    unfold authenticate_user, query_user_first; run;
    unfold verify_password, encode_utf8 in *; cbn.
  - destruct (users (database w) !! username) as [c|]; [|discriminate].
    injection Hu as <-. cbn in *. rewrite Hv. eexists; reflexivity.
  - destruct (IN_MEMORY_USERS w !! username) as [d|]; [|discriminate].
    injection Hu as <-. cbn in *. rewrite Hv. eexists; reflexivity.
Qed.

Lemma authenticate_user_accepted username password db w u w' :
  authenticate_user bcrypt_checkpw username password db w = (Ok (Some u), w') →
  stored_user db w username = Some u
  ∧ verify_password bcrypt_checkpw password (encode_utf8 (user_obj_password_hash u))
    = Ok true.
Proof.
  destruct db as [[]|]; unfold authenticate_user, query_user_first; run;
    unfold verify_password, encode_utf8 in *; cbn.
  - destruct (users (database w) !! username) as [c|]; cbn; [|discriminate].
    destruct (bcrypt_checkpw _ _) as [[]|e] eqn:Hv; cbn; try discriminate.
    intros [= <- _]. by rewrite <- Hv.
  - destruct (IN_MEMORY_USERS w !! username) as [d|]; cbn; [|discriminate].
    destruct (bcrypt_checkpw _ _) as [[]|e] eqn:Hv; cbn; try discriminate.
    intros [= <- _]. by rewrite <- Hv.
Qed.

Lemma create_user_stores username email password db gensalt w u w1 :
  create_user bcrypt_hashpw username email password db gensalt w = (Ok u, w1) →
  stored_user db w1 username = Some u.
Proof.
  unfold create_user, add_commit_user; run.
  destruct (hash_password _ _ _) as [h|e]; cbn; [|discriminate].
  destruct db as [[]|]; cbn.
  - destruct (bool_decide _ || _); cbn; [discriminate|].
    intros [= <- <-]. cbn. by rewrite lookup_insert_eq.
  - rewrite lookup_insert_eq. intros [= <- <-]. cbn. by rewrite lookup_insert_eq.
Qed.
End more_user_properties.

(** X8. [authenticate_user] returns a record exactly when it is the
    record stored under the username and the password verifies against its
    hash: nothing else is ever returned, and that record always is. *)
Theorem authenticate_user_accepts_exactly
    (bcrypt_checkpw : bytes → bytes → result bool)
    (username password : string) (db : option DbSession) (w : World) (u : user_obj) :
  (∃ w', authenticate_user bcrypt_checkpw username password db w = (Ok (Some u), w'))
  ↔ stored_user db w username = Some u
    ∧ verify_password bcrypt_checkpw password (encode_utf8 (user_obj_password_hash u))
      = Ok true.
Proof.
  split.
  - intros (w' & Ha). by apply authenticate_user_accepted in Ha.
  - intros [Hu Hv]. by apply authenticate_user_accepts.
Qed.

Lemma authenticate_user_accepts_exactly_witness :
  ∃ w',
    authenticate_user sample_checkpw "bob" "hunter2" (Some SessionLocal) one_user_world
    = (Ok (Some (UserRow (User.mk 1 "bob" "bob@example.org" "$2b$12$hunter2"))), w').
Proof.
  apply (authenticate_user_accepts_exactly sample_checkpw "bob" "hunter2"
           (Some SessionLocal) one_user_world).
  split; vm_compute; reflexivity.
Defined.

(** X9. Registration followed by login: the record [create_user] returned
    is the one [authenticate_user] returns for the same username and
    password, provided bcrypt verifies the password against the hash it has
    just produced. *)
Theorem create_user_then_authenticate_user
    (bcrypt_hashpw : bytes → bytes → result bytes)
    (bcrypt_checkpw : bytes → bytes → result bool)
    (username email password : string) (db : option DbSession) (gensalt : bytes)
    (w w1 : World) (u : user_obj) :
  create_user bcrypt_hashpw username email password db gensalt w = (Ok u, w1) →
  verify_password bcrypt_checkpw password (encode_utf8 (user_obj_password_hash u))
    = Ok true →
  ∃ w2, authenticate_user bcrypt_checkpw username password db w1 = (Ok (Some u), w2).
Proof.
  intros Hc Hv. apply authenticate_user_accepts; [|exact Hv].
  by apply (create_user_stores bcrypt_hashpw username email password db gensalt w).
Qed.

Lemma create_user_then_authenticate_user_witness :
  ∃ u w1 w2,
    create_user sample_hashpw "alice" "alice@example.org" "s3cret" (Some SessionLocal)
      "$2b$12$" one_user_world = (Ok u, w1)
    ∧ authenticate_user sample_checkpw "alice" "s3cret" (Some SessionLocal) w1
      = (Ok (Some u), w2)
    ∧ u = UserRow (User.mk 2 "alice" "alice@example.org" "$2b$12$s3cret").
Proof.
  assert (Hc : ∃ w1,
    create_user sample_hashpw "alice" "alice@example.org" "s3cret" (Some SessionLocal)
      "$2b$12$" one_user_world
    = (Ok (UserRow (User.mk 2 "alice" "alice@example.org" "$2b$12$s3cret")), w1))
    by (vm_compute; eauto).
  destruct Hc as (w1 & Hc).
  destruct (create_user_then_authenticate_user sample_hashpw sample_checkpw "alice"
              "alice@example.org" "s3cret" (Some SessionLocal) "$2b$12$" one_user_world w1
              _ Hc) as (w2 & Ha); [reflexivity|].
  eauto 10.
Defined.

(** X10. An exception of bcrypt is not caught. When hashing raises,
    [create_user] raises the same exception and nothing is stored or
    printed; when verifying against the stored hash raises,
    [authenticate_user] raises it instead of returning [None]. *)
Theorem bcrypt_errors_propagate
    (bcrypt_hashpw : bytes → bytes → result bytes)
    (bcrypt_checkpw : bytes → bytes → result bool)
    (username email password : string) (db : option DbSession) (gensalt : bytes)
    (w : World) (e : exn) :
  (hash_password bcrypt_hashpw password gensalt = Raise e →
   create_user bcrypt_hashpw username email password db gensalt w = (Raise e, w))
  ∧ (∀ u,
       stored_user db w username = Some u →
       verify_password bcrypt_checkpw password (encode_utf8 (user_obj_password_hash u))
         = Raise e →
       authenticate_user bcrypt_checkpw username password db w = (Raise e, w)).
Proof.
  split.
  - intros Hh. unfold create_user; run. by rewrite Hh.
  - intros u Hu Hv. destruct db as [[]|]; cbn in Hu;
      unfold authenticate_user, query_user_first; run;
      unfold verify_password, encode_utf8 in *; cbn.
    + destruct (users (database w) !! username) as [c|]; [|discriminate].
      injection Hu as <-. cbn in *. by rewrite Hv.
    + destruct (IN_MEMORY_USERS w !! username) as [d|]; [|discriminate].
      injection Hu as <-. cbn in *. by rewrite Hv.
Qed.

Lemma bcrypt_errors_propagate_witness :
  create_user (fun _ _ => Raise (ValueError "Invalid salt")) "bob" "b@example.org" "pw"
    None "" one_user_world = (Raise (ValueError "Invalid salt"), one_user_world)
  ∧ authenticate_user (fun _ _ => Raise (ValueError "Invalid salt")) "bob" "pw" None
      one_user_world = (Raise (ValueError "Invalid salt"), one_user_world).
Proof.
  pose proof (bcrypt_errors_propagate (fun _ _ => Raise (ValueError "Invalid salt"))
                (fun _ _ => Raise (ValueError "Invalid salt")) "bob" "b@example.org" "pw"
                None "" one_user_world (ValueError "Invalid salt")) as [Hc Ha].
  split.
  - by apply Hc.
  - apply (Ha (UserDict (mk_user_data "bob@example.org" "$2b$12$hunter2")));
      vm_compute; reflexivity.
Defined.



(** X20. The in-memory fallback does not keep emails unique: registering
    a new username with an email that another record already has succeeds,
    and afterwards both records carry that email. *)
Theorem create_user_in_memory_shares_email
    (bcrypt_hashpw : bytes → bytes → result bytes)
    (username email password other : string) (gensalt h : bytes) (d : user_data)
    (w : World) :
  other ≠ username →
  IN_MEMORY_USERS w !! other = Some d →
  ud_email d = email →
  hash_password bcrypt_hashpw password gensalt = Ok h →
  ∃ w1,
    create_user bcrypt_hashpw username email password None gensalt w
      = (Ok (UserDict (mk_user_data email (decode_utf8 h))), w1)
    ∧ IN_MEMORY_USERS w1 !! other = Some d
    ∧ IN_MEMORY_USERS w1 !! username = Some (mk_user_data email (decode_utf8 h)).
Proof.
  intros Hne Hother _ Hh.
  eexists. split; [by apply create_user_in_memory|]. cbn.
  split; [by rewrite lookup_insert_ne | by rewrite lookup_insert_eq].
Qed.

Lemma create_user_in_memory_shares_email_witness :
  ∃ w1,
    create_user sample_hashpw "robert" "bob@example.org" "pw" None "$2b$12$" one_user_world
      = (Ok (UserDict (mk_user_data "bob@example.org" "$2b$12$pw")), w1)
    ∧ IN_MEMORY_USERS w1 !! "bob"
      = Some (mk_user_data "bob@example.org" "$2b$12$hunter2")
    ∧ IN_MEMORY_USERS w1 !! "robert" = Some (mk_user_data "bob@example.org" "$2b$12$pw").
Proof.
  apply (create_user_in_memory_shares_email sample_hashpw "robert" "bob@example.org" "pw"
           "bob" "$2b$12$" "$2b$12$pw" (mk_user_data "bob@example.org" "$2b$12$hunter2")
           one_user_world).
  - discriminate.
  - vm_compute; reflexivity.
  - reflexivity.
  - reflexivity.
Defined.

(** ** The connector: what it attempts and what it prints *)

Section more_connector_properties.
Variable int : string → result Z.
Variable connect_error : ConnectionContext → option exn.

Lemma connection_handlers_run port e w :
  hana_connector.connection_handlers port e w
    = (Ok None, set_stdout (fun out => out ++ [connection_error_line port e]) w).
Proof. by destruct e. Qed.

Lemma get_hana_connection_blank w :
  forallb hana_connector.truthy
    [environ w !! "HANA_ADDRESS"; environ w !! "HANA_PORT"; environ w !! "HANA_USER";
     environ w !! "HANA_PASSWORD"] = false →
  ∃ w',
    hana_connector.get_hana_connection int connect_error w = (Ok None, w')
    ∧ same_but_stdout w w'
    ∧ stdout w' = stdout w ++ missing_variables_lines.
Proof.
  intros Hblank. unfold hana_connector.get_hana_connection, hana_connector.getenv.
  run. cbn. cbn in Hblank. rewrite Hblank. cbn.
  eexists. split; [reflexivity|]. split; [by repeat split|].
  cbn. by rewrite <- app_assoc.
Qed.

Lemma get_hana_connection_run w address port user password :
  hana_settings (environ w) address port user password →
  hana_connector.get_hana_connection int connect_error w =
    match int port with
    | Raise e =>
        (Ok None, set_stdout (fun out => out ++ [connection_error_line port e]) w)
    | Ok n =>
        let c := mkConnectionContext address n user password in
        let w1 := set_hana_log (fun l => l ++ [Connect c]) w in
        match connect_error c with
        | None =>
            (Ok (Some c),
             set_stdout (fun out => out ++ ["Successfully connected to SAP HANA."]) w1)
        | Some e =>
            (Ok None,
             set_stdout (fun out => out ++ [connection_error_line (pretty n) e]) w1)
        end
    end.
Proof.
  intros (Ha & Hp & Hu & Hpw & Hane & Hpne & Hune & Hpwne).
  unfold hana_connector.get_hana_connection, hana_connector.getenv.
  run. cbn. rewrite Ha, Hp, Hu, Hpw. cbn.
  apply String.eqb_neq in Hane, Hpne, Hune, Hpwne.
  rewrite Hane, Hpne, Hune, Hpwne. cbn.
  destruct (int port) as [n|e]; [|apply connection_handlers_run].
  unfold hana_connector.ConnectionContext_new. run. cbn.
  destruct (connect_error _) as [e|]; cbn; [apply connection_handlers_run|reflexivity].
Qed.

(** The handle returned, together with the calls that reached the client. *)
Lemma get_hana_connection_log w :
  ∃ w',
    hana_connector.get_hana_connection int connect_error w
      = (Ok (connection_in int connect_error (environ w)), w')
    ∧ match connection_in int connect_error (environ w) with
      | Some c => hana_log w' = hana_log w ++ [Connect c]
      | None => hana_log w' = hana_log w ∨ ∃ c, hana_log w' = hana_log w ++ [Connect c]
      end.
Proof.
  destruct (forallb hana_connector.truthy
              [environ w !! "HANA_ADDRESS"; environ w !! "HANA_PORT";
               environ w !! "HANA_USER"; environ w !! "HANA_PASSWORD"]) eqn:Hall.
  - cbn in Hall.
    destruct (environ w !! "HANA_ADDRESS") as [address|] eqn:Ha; [|discriminate].
    destruct (environ w !! "HANA_PORT") as [port|] eqn:Hp;
      [|cbn in Hall; by rewrite andb_false_r in Hall].
    destruct (environ w !! "HANA_USER") as [user|] eqn:Hu;
      [|cbn in Hall; by rewrite !andb_false_r in Hall].
    destruct (environ w !! "HANA_PASSWORD") as [password|] eqn:Hpw;
      [|cbn in Hall; by rewrite !andb_false_r in Hall].
    assert (Hset : hana_settings (environ w) address port user password).
    { cbn in Hall. rewrite andb_true_r in Hall.
      apply andb_prop in Hall as [H1 Hall]. apply andb_prop in Hall as [H2 Hall].
      apply andb_prop in Hall as [H3 H4].
      apply negb_true_iff, String.eqb_neq in H1, H2, H3, H4.
      by repeat split. }
    rewrite (get_hana_connection_run w address port user password Hset).
    unfold connection_in. rewrite Ha, Hp, Hu, Hpw.
    replace (forallb hana_connector.truthy
               [Some address; Some port; Some user; Some password]) with true.
    destruct (int port) as [n|e]; [|eexists; split; [reflexivity|by left]].
    cbn. destruct (connect_error _) as [e|];
      eexists; (split; [reflexivity|]); cbn; eauto.
  - destruct (get_hana_connection_blank w Hall) as (w' & Hrun & (_ & _ & _ & _ & Hlog) & _).
    exists w'. rewrite Hrun.
    assert (connection_in int connect_error (environ w) = None) as ->.
    { unfold connection_in.
      destruct (environ w !! "HANA_ADDRESS"), (environ w !! "HANA_PORT"),
        (environ w !! "HANA_USER"), (environ w !! "HANA_PASSWORD"); try reflexivity.
      by rewrite Hall. }
    split; [reflexivity|by left].
Qed.
End more_connector_properties.

(** X12. A connection variable that is unset or set to the empty string
    stops [get_hana_connection] before anything else happens: it returns
    [None] after printing the two lines that name the variables, the port is
    not parsed and no connection is attempted. *)
Theorem get_hana_connection_needs_every_variable
    (int : string → result Z) (connect_error : ConnectionContext → option exn)
    (w : World) (name : string) :
  name ∈ hana_variables →
  environ w !! name = None ∨ environ w !! name = Some "" →
  ∃ w',
    hana_connector.get_hana_connection int connect_error w = (Ok None, w')
    ∧ hana_log w' = hana_log w
    ∧ stdout w' = stdout w ++ missing_variables_lines.
Proof.
  intros Hin Hblank.
  destruct (get_hana_connection_blank int connect_error w)
    as (w' & Hrun & (_ & _ & _ & _ & Hlog) & Hout); [|by eauto].
  unfold hana_variables in Hin. cbn.
  repeat (apply elem_of_cons in Hin as [-> | Hin]); [..|by apply not_elem_of_nil in Hin];
    destruct Hblank as [-> | ->]; cbn; by rewrite ?andb_false_r.
Qed.

Lemma get_hana_connection_needs_every_variable_witness :
  ∃ w',
    hana_connector.get_hana_connection sample_int (fun _ => None)
      (mkWorld ∅ ∅ empty_database (<["HANA_USER" := ""]> sample_environ) [] [])
    = (Ok None, w')
    ∧ hana_log w' = []
    ∧ stdout w' = missing_variables_lines.
Proof.
  apply (get_hana_connection_needs_every_variable sample_int (fun _ => None)
           (mkWorld ∅ ∅ empty_database (<["HANA_USER" := ""]> sample_environ) [] [])
           "HANA_USER").
  - unfold hana_variables. do 2 (apply elem_of_cons; right). apply elem_of_cons; by left.
  - right. vm_compute; reflexivity.
Defined.

(** X13. When the four variables are set and not empty, the port parses
    and the server accepts, [get_hana_connection] returns the handle for
    exactly those four values with the parsed port, after one attempt to
    connect and the line that reports success. *)
Theorem get_hana_connection_connects
    (int : string → result Z) (connect_error : ConnectionContext → option exn)
    (w : World) (address port user password : string) (n : Z) :
  hana_settings (environ w) address port user password →
  int port = Ok n →
  connect_error (mkConnectionContext address n user password) = None →
  ∃ w',
    hana_connector.get_hana_connection int connect_error w
      = (Ok (Some (mkConnectionContext address n user password)), w')
    ∧ hana_log w' = hana_log w ++ [Connect (mkConnectionContext address n user password)]
    ∧ stdout w' = stdout w ++ ["Successfully connected to SAP HANA."].
Proof.
  intros Hset Hint Hconn.
  rewrite (get_hana_connection_run int connect_error w _ _ _ _ Hset), Hint. cbn.
  rewrite Hconn. eexists. split; [reflexivity|]. auto.
Qed.

Lemma get_hana_connection_connects_witness :
  ∃ w',
    hana_connector.get_hana_connection sample_int (fun _ => None) sample_world
      = (Ok (Some sample_handle), w')
    ∧ hana_log w' = [Connect sample_handle]
    ∧ stdout w' = ["Successfully connected to SAP HANA."].
Proof.
  apply (get_hana_connection_connects sample_int (fun _ => None) sample_world
           "hana.example.org" "30015" "dashboard" "secret" 30015%Z).
  - repeat split; try discriminate; vm_compute; reflexivity.
  - reflexivity.
  - reflexivity.
Defined.

(** X14. With the four variables set, a failure is reported on the
    standard output and turned into [None]. A port that [int] refuses with
    [ValueError] is named in the message and no connection is attempted. An
    exception of the connection attempt is printed with its text, except a
    [ValueError], which is reported as an invalid port, with the port as it
    was parsed. *)
Theorem get_hana_connection_reports_failure
    (int : string → result Z) (connect_error : ConnectionContext → option exn)
    (w : World) (address port user password : string) :
  hana_settings (environ w) address port user password →
  (∀ msg,
     int port = Raise (ValueError msg) →
     ∃ w',
       hana_connector.get_hana_connection int connect_error w = (Ok None, w')
       ∧ hana_log w' = hana_log w
       ∧ stdout w' = stdout w
           ++ ["Error: HANA_PORT ('" +:+ port +:+ "') is not a valid integer."])
  ∧ (∀ n e,
       int port = Ok n →
       connect_error (mkConnectionContext address n user password) = Some e →
       ∃ w',
         hana_connector.get_hana_connection int connect_error w = (Ok None, w')
         ∧ hana_log w' = hana_log w ++ [Connect (mkConnectionContext address n user password)]
         ∧ stdout w' = stdout w
             ++ [match e with
                 | ValueError _ =>
                     "Error: HANA_PORT ('" +:+ pretty n +:+ "') is not a valid integer."
                 | _ => "Error connecting to SAP HANA: " +:+ str_exn e
                 end]).
Proof.
  intros Hset. split.
  - intros msg Hint.
    rewrite (get_hana_connection_run int connect_error w _ _ _ _ Hset), Hint.
    eexists. split; [reflexivity|]. auto.
  - intros n e Hint Hconn.
    rewrite (get_hana_connection_run int connect_error w _ _ _ _ Hset), Hint. cbn.
    rewrite Hconn. eexists. split; [reflexivity|]. split; [reflexivity|].
    by destruct e.
Qed.

Lemma get_hana_connection_reports_failure_witness :
  (∃ w',
     hana_connector.get_hana_connection sample_int (fun _ => None)
       (mkWorld ∅ ∅ empty_database (<["HANA_PORT" := "notanint"]> sample_environ) [] [])
     = (Ok None, w')
     ∧ stdout w' = ["Error: HANA_PORT ('notanint') is not a valid integer."])
  ∧ (∃ w',
       hana_connector.get_hana_connection sample_int
         (fun _ => Some (ValueError "bad option")) sample_world = (Ok None, w')
       ∧ stdout w' = ["Error: HANA_PORT ('30015') is not a valid integer."])
  ∧ (∃ w',
       hana_connector.get_hana_connection sample_int
         (fun _ => Some (Exception "Test connection error")) sample_world = (Ok None, w')
       ∧ stdout w' = ["Error connecting to SAP HANA: Test connection error"]).
Proof.
  split; [|split].
  - destruct (get_hana_connection_reports_failure sample_int (fun _ => None)
                (mkWorld ∅ ∅ empty_database (<["HANA_PORT" := "notanint"]> sample_environ)
                   [] [])
                "hana.example.org" "notanint" "dashboard" "secret") as [Hport _].
    + repeat split; try discriminate; vm_compute; reflexivity.
    + destruct (Hport "invalid literal for int() with base 10") as (w' & Hrun & _ & Hout);
        [reflexivity|]. eauto.
  - destruct (get_hana_connection_reports_failure sample_int
                (fun _ => Some (ValueError "bad option")) sample_world
                "hana.example.org" "30015" "dashboard" "secret") as [_ Hconn].
    + repeat split; try discriminate; vm_compute; reflexivity.
    + destruct (Hconn 30015%Z (ValueError "bad option")) as (w' & Hrun & _ & Hout);
        [reflexivity | reflexivity |]. eauto.
  - destruct (get_hana_connection_reports_failure sample_int
                (fun _ => Some (Exception "Test connection error")) sample_world
                "hana.example.org" "30015" "dashboard" "secret") as [_ Hconn].
    + repeat split; try discriminate; vm_compute; reflexivity.
    + destruct (Hconn 30015%Z (Exception "Test connection error"))
        as (w' & Hrun & _ & Hout); [reflexivity | reflexivity |]. eauto.
Defined.



(** ** The dashboard and the script, with the connector of the repository *)

Section more_dashboard_properties.
Variable get_hana_connection : M (option ConnectionContext).
Variable get_sales_data : option ConnectionContext → M DataFrame.
Variable close_error : ConnectionContext → option exn.

Local Abbreviation build' :=
  (main.create_sales_dashboard get_hana_connection get_sales_data close_error).

Lemma dashboard_connector_raises user w e w1 :
  get_hana_connection w = (Raise e, w1) →
  build' (Some user) w = (Raise e, w1).
Proof. intros Hconn. unfold main.create_sales_dashboard; run. by rewrite Hconn. Qed.

Lemma dashboard_fetch_raises user w c w1 e w2 :
  get_hana_connection w = (Ok (Some c), w1) →
  get_sales_data (Some c) w1 = (Raise e, w2) →
  build' (Some user) w = (Raise e, w2).
Proof.
  intros Hconn Hfetch. unfold main.create_sales_dashboard; run.
  by rewrite Hconn, Hfetch.
Qed.

End more_dashboard_properties.

(** X16. With the connector of the repository, a dashboard build for a
    user returns a view only when no handle is obtained: the danger notice
    and an empty table, with nothing closed. When a handle is obtained the
    fetched mock table is not empty, the table pane refuses the keyword
    [show_index], and the build raises [TypeError] after the one attempt to
    connect: the handle is never closed. *)
Theorem create_sales_dashboard_with_connector
    (int : string → result Z) (connect_error close_error : ConnectionContext → option exn)
    (user : main.MockUser) (w : World) :
  ∃ r w',
    main.create_sales_dashboard (hana_connector.get_hana_connection int connect_error)
      hana_connector.get_sales_data close_error (Some user) w = (r, w')
    ∧ match connection_in int connect_error (environ w) with
      | Some c =>
          r = Raise (TypeError
                       "DataFrame.__init__() got an unexpected keyword argument 'show_index'")
          ∧ hana_log w' = hana_log w ++ [Connect c]
      | None =>
          (hana_log w' = hana_log w ∨ ∃ c, hana_log w' = hana_log w ++ [Connect c])
          ∧ ∃ v,
              r = Ok v
              ∧ view_tables v = [pd_DataFrame []]
              ∧ view_alerts "danger" v =
                  ["Error: Could not connect to SAP HANA. Please check connection details or environment variables."]
      end.
Proof.
  destruct (get_hana_connection_log int connect_error w) as (w1 & Hconn & Hlog).
  destruct (connection_in int connect_error (environ w)) as [c|].
  - eexists _, _. split.
    + apply (dashboard_pane_refused _ hana_connector.get_sales_data close_error user w c w1
               (pd_DataFrame hana_connector.sales_mock_data)
               (set_stdout (fun out => out ++ ["Simulating fetching sales data..."]) w1)
               Hconn eq_refl eq_refl).
    + split; [reflexivity|exact Hlog].
  - eexists _, w1. split; [by apply dashboard_no_handle|].
    split; [exact Hlog|]. eexists. split; [reflexivity|]. auto.
Qed.

(** X17. An exception of the connector or of the fetch is not caught by
    the builder: it reaches the caller, and after a failed fetch the handle
    that was obtained is not closed. *)
Theorem create_sales_dashboard_propagates
    (get_hana_connection : M (option ConnectionContext))
    (get_sales_data : option ConnectionContext → M DataFrame)
    (close_error : ConnectionContext → option exn)
    (user : main.MockUser) (w w1 : World) (e : exn) :
  let build := main.create_sales_dashboard get_hana_connection get_sales_data close_error in
  (get_hana_connection w = (Raise e, w1) → build (Some user) w = (Raise e, w1))
  ∧ (∀ c w2,
       get_hana_connection w = (Ok (Some c), w1) →
       get_sales_data (Some c) w1 = (Raise e, w2) →
       build (Some user) w = (Raise e, w2)).
Proof.
  cbv zeta. split.
  - apply dashboard_connector_raises.
  - intros c w2. apply dashboard_fetch_raises.
Qed.

Lemma create_sales_dashboard_propagates_witness :
  ∃ w2,
    main.create_sales_dashboard (hana_connector.get_hana_connection sample_int (fun _ => None))
      (fun _ => raise (Exception "SQL Query Failed")) (fun _ => None)
      (Some testuser) sample_world = (Raise (Exception "SQL Query Failed"), w2)
    ∧ hana_log w2 = [Connect sample_handle].
Proof.
  eexists. split.
  - apply (proj2 (create_sales_dashboard_propagates
                    (hana_connector.get_hana_connection sample_int (fun _ => None))
                    (fun _ => raise (Exception "SQL Query Failed")) (fun _ => None)
                    testuser sample_world
                    (set_stdout (fun out => out ++ ["Successfully connected to SAP HANA."])
                       (set_hana_log (fun l => l ++ [Connect sample_handle]) sample_world))
                    (Exception "SQL Query Failed")) sample_handle);
      [vm_compute; reflexivity | reflexivity].
  - reflexivity.
Defined.



(** X19. The script at the end of hana_connector.py never raises, and it
    closes the handle it obtained: the calls to the client are one connect
    and one close, in this order, or no close when no handle was obtained. *)
Theorem hana_connector_script_closes
    (int : string → result Z) (connect_error close_error : ConnectionContext → option exn)
    (df_to_string : DataFrame → string) (w : World) :
  ∃ w',
    hana_connector_script int connect_error close_error df_to_string w = (Ok tt, w')
    ∧ match connection_in int connect_error (environ w) with
      | Some c => hana_log w' = hana_log w ++ [Connect c; Close c]
      | None => hana_log w' = hana_log w ∨ ∃ c, hana_log w' = hana_log w ++ [Connect c]
      end.
Proof.
  unfold hana_connector_script. run. cbn.
  destruct (get_hana_connection_log int connect_error
              (set_stdout
                 (fun out => out ++ ["Attempting to connect to HANA (ensure env vars are set)..."])
                 w)) as (w1 & Hconn & Hlog).
  cbn in Hconn, Hlog. rewrite Hconn.
  destruct (connection_in int connect_error (environ w)) as [c|]; cbn.
  - unfold main.close. run. cbn.
    destruct (close_error c) as [e|]; cbn;
      eexists; (split; [reflexivity|]); cbn; by rewrite Hlog, <- app_assoc.
  - eexists; split; [reflexivity|]. exact Hlog.
Qed.
